(** * The WebChannel bridge of profiler.firefox.com

    A shallow embedding of [src/app-logic/web-channel.js]: the one-off
    listener that validates inbound [WebChannelMessageToContent] events, the
    sender that dispatches [WebChannelMessageToChrome] events, the promise
    that ties both together and the two exported requests.

    The JavaScript heap is modelled by explicit state passing: the state
    holds the registration of the listener on [window], the promise of the
    pending request with a ledger of the calls made to its [resolve] and
    [reject] functions, the console and the events dispatched to the
    browser. *)

From Stdlib Require Import ZArith List String Ascii Bool Lia DecimalString.
Import ListNotations.
Set Warnings "-register-all".
Local Open Scope string_scope.
Local Open Scope Z_scope.

(** ** JavaScript values *)

Module JS.

(** The values that travel through a WebChannel are plain data (the channel
    clones them structurally): no function and so no thenable is among
    them.  Numbers are restricted to integers; an object is the list of its
    own properties in insertion order. *)
Inductive value : Type :=
| VUndefined
| VNull
| VBool (b : bool)
| VNumber (z : Z)
| VString (s : string)
| VArray (elements : list value)
| VObject (fields : list (string * value)).

(** [typeof v] *)
Definition typeof (v : value) : string :=
  match v with
  | VUndefined => "undefined"
  | VNull => "object"
  | VBool _ => "boolean"
  | VNumber _ => "number"
  | VString _ => "string"
  | VArray _ => "object"
  | VObject _ => "object"
  end.

(** ToBoolean, as applied by [&&] and [if]. *)
Definition truthy (v : value) : bool :=
  match v with
  | VUndefined => false
  | VNull => false
  | VBool b => b
  | VNumber z => negb (z =? 0)
  | VString s => negb (s =? "")%string
  | VArray _ => true
  | VObject _ => true
  end.

(** Lookup of an own property in the field list of an object. *)
Fixpoint lookup (k : string) (fields : list (string * value)) : value :=
  match fields with
  | [] => VUndefined
  | (k', v) :: rest => if (k' =? k)%string then v else lookup k rest
  end.

(** [v.k], also the reading done by the destructuring [const { k } = v].
    [None] is the TypeError raised on [undefined] and [null].  Primitives
    are boxed and arrays carry only indices: for the property names this
    program reads ([id], [message], [error], [type],
    [menuButtonIsEnabled]), none of which a built-in prototype defines,
    the result is [undefined]. *)
Definition get (v : value) (k : string) : option value :=
  match v with
  | VUndefined => None
  | VNull => None
  | VObject fields => Some (lookup k fields)
  | _ => Some VUndefined
  end.

(** [v === s] for a string [s]: strict equality never converts. *)
Definition strict_eq_string (v : value) (s : string) : bool :=
  match v with
  | VString s' => (s' =? s)%string
  | _ => false
  end.

End JS.
Export JS.

(** ** JSON text *)

Module JSON.

Definition dquote : ascii := ascii_of_nat 34.
Definition backslash : ascii := ascii_of_nat 92.

Definition hex_digit (n : nat) : ascii :=
  match n with
  | 10%nat => "a" | 11%nat => "b" | 12%nat => "c"
  | 13%nat => "d" | 14%nat => "e" | 15%nat => "f"
  | _ => ascii_of_nat (48 + n)
  end.

(** One character of a quoted string, escaped as [JSON.stringify] does. *)
Definition escape (c : ascii) : string :=
  let n := nat_of_ascii c in
  if Ascii.eqb c dquote then String backslash (String dquote "")
  else if Ascii.eqb c backslash then String backslash (String backslash "")
  else if (n =? 8)%nat then String backslash "b"
  else if (n =? 12)%nat then String backslash "f"
  else if (n =? 10)%nat then String backslash "n"
  else if (n =? 13)%nat then String backslash "r"
  else if (n =? 9)%nat then String backslash "t"
  else if (n <? 32)%nat then
    String backslash
      (String "u" (String "0" (String "0"
         (String (hex_digit (n / 16)) (String (hex_digit (n mod 16)) "")))))
  else String c "".

Fixpoint escape_all (s : string) : string :=
  match s with
  | EmptyString => ""
  | String c rest => escape c ++ escape_all rest
  end.

Definition quote (s : string) : string :=
  String dquote (escape_all s ++ String dquote "").

Definition number_to_string (z : Z) : string :=
  NilZero.string_of_int (Z.to_int z).

Definition join (parts : list string) : string :=
  String.concat "," parts.

(** [JSON.stringify v]; [None] is the [undefined] it returns for a value
    that has no JSON text.  An undefined property is left out of an object
    and an undefined element of an array is written [null].  Values are
    finite trees, so the cycle that makes the builtin throw cannot occur. *)
Fixpoint stringify (v : value) : option string :=
  match v with
  | VUndefined => None
  | VNull => Some "null"
  | VBool true => Some "true"
  | VBool false => Some "false"
  | VNumber z => Some (number_to_string z)
  | VString s => Some (quote s)
  | VArray elements =>
      Some ("[" ++ join (map (fun e => match stringify e with
                                       | Some t => t
                                       | None => "null"
                                       end) elements) ++ "]")
  | VObject fields =>
      Some ("{" ++ join (flat_map (fun kv => match stringify (snd kv) with
                                             | Some t => [quote (fst kv) ++ ":" ++ t]
                                             | None => []
                                             end) fields) ++ "}")
  end.

(** *** Reading JSON text back

    A model of the host's [JSON.parse] for the values above: a
    recursive-descent reader of the JSON grammar with integer numbers and
    escapes below U+0080.  Every function returns the value read and the
    rest of the text. *)

Definition is_ws (c : ascii) : bool :=
  let n := nat_of_ascii c in
  ((n =? 32) || (n =? 9) || (n =? 10) || (n =? 13))%nat.

Fixpoint skip_ws (s : string) : string :=
  match s with
  | String c rest => if is_ws c then skip_ws rest else s
  | EmptyString => s
  end.

Definition digit_of (c : ascii) : option Z :=
  let n := nat_of_ascii c in
  if ((48 <=? n) && (n <=? 57))%nat then Some (Z.of_nat (n - 48)) else None.

Definition hex_of (c : ascii) : option nat :=
  let n := nat_of_ascii c in
  if ((48 <=? n) && (n <=? 57))%nat then Some (n - 48)%nat
  else if ((97 <=? n) && (n <=? 102))%nat then Some (n - 87)%nat
  else if ((65 <=? n) && (n <=? 70))%nat then Some (n - 55)%nat
  else None.

(** The digits that continue a number whose value so far is [acc]. *)
Fixpoint parse_digits (s : string) (acc : Z) : Z * string :=
  match s with
  | String c rest =>
      match digit_of c with
      | Some d => parse_digits rest (10 * acc + d)
      | None => (acc, s)
      end
  | EmptyString => (acc, s)
  end.

(** A natural number without a leading zero. *)
Definition parse_nat (s : string) : option (Z * string) :=
  match s with
  | String c rest =>
      match digit_of c with
      | Some 0 =>
          match rest with
          | String c' _ =>
              match digit_of c' with
              | Some _ => None
              | None => Some (0, rest)
              end
          | EmptyString => Some (0, rest)
          end
      | Some d => Some (parse_digits rest d)
      | None => None
      end
  | EmptyString => None
  end.

(** The escape that follows a backslash. *)
Definition parse_escape (s : string) : option (ascii * string) :=
  match s with
  | String c rest =>
      if Ascii.eqb c dquote then Some (dquote, rest)
      else if Ascii.eqb c backslash then Some (backslash, rest)
      else if Ascii.eqb c "/" then Some ("/"%char, rest)
      else if Ascii.eqb c "b" then Some (ascii_of_nat 8, rest)
      else if Ascii.eqb c "f" then Some (ascii_of_nat 12, rest)
      else if Ascii.eqb c "n" then Some (ascii_of_nat 10, rest)
      else if Ascii.eqb c "r" then Some (ascii_of_nat 13, rest)
      else if Ascii.eqb c "t" then Some (ascii_of_nat 9, rest)
      else if Ascii.eqb c "u" then
        match rest with
        | String h1 (String h2 (String h3 (String h4 rest'))) =>
            match hex_of h1, hex_of h2, hex_of h3, hex_of h4 with
            | Some 0%nat, Some 0%nat, Some a, Some b =>
                if (a <? 8)%nat then Some (ascii_of_nat (16 * a + b), rest')
                else None
            | _, _, _, _ => None
            end
        | _ => None
        end
      else None
  | EmptyString => None
  end.

(** The characters of a string after its opening quote. *)
Fixpoint parse_chars (s : string) : option (string * string) :=
  match s with
  | EmptyString => None
  | String c rest =>
      if Ascii.eqb c dquote then Some ("", rest)
      else if Ascii.eqb c backslash then
        match rest with
        | String e rest' =>
            match parse_escape rest with
            | Some (c', after) =>
                (* the escape is one or five characters long *)
                if Ascii.eqb e "u" then
                  match rest' with
                  | String _ (String _ (String _ (String _ tail))) =>
                      match parse_chars tail with
                      | Some (str, r) => Some (String c' str, r)
                      | None => None
                      end
                  | _ => None
                  end
                else
                  match parse_chars rest' with
                  | Some (str, r) => Some (String c' str, r)
                  | None => None
                  end
            | None => None
            end
        | EmptyString => None
        end
      else if (nat_of_ascii c <? 32)%nat then None
      else
        match parse_chars rest with
        | Some (str, r) => Some (String c str, r)
        | None => None
        end
  end.

(** [word] at the head of [s]. *)
Fixpoint expect (word s : string) : option string :=
  match word, s with
  | EmptyString, _ => Some s
  | String w word', String c rest =>
      if Ascii.eqb w c then expect word' rest else None
  | String _ _, EmptyString => None
  end.

(** A property read twice keeps its place and takes the later value. *)
Fixpoint set_field (k : string) (v : value) (fields : list (string * value))
  : list (string * value) :=
  match fields with
  | [] => [(k, v)]
  | (k', v') :: rest =>
      if (k' =? k)%string then (k, v) :: rest
      else (k', v') :: set_field k v rest
  end.

(** A value, the members of an object after a brace or a comma, or the
    elements of an array after a bracket or a comma.  [fuel] bounds the
    nesting and the number of members read. *)
Fixpoint parse_value (fuel : nat) (s : string) {struct fuel}
  : option (value * string) :=
  match fuel with
  | O => None
  | S fuel' =>
      match skip_ws s with
      | EmptyString => None
      | String c rest =>
          if Ascii.eqb c "{" then
            match skip_ws rest with
            | String "}" after => Some (VObject [], after)
            | _ => parse_members fuel' rest []
            end
          else if Ascii.eqb c "[" then
            match skip_ws rest with
            | String "]" after => Some (VArray [], after)
            | _ => parse_elements fuel' rest []
            end
          else if Ascii.eqb c dquote then
            match parse_chars rest with
            | Some (str, after) => Some (VString str, after)
            | None => None
            end
          else if Ascii.eqb c "-" then
            match parse_nat rest with
            | Some (z, after) => Some (VNumber (- z), after)
            | None => None
            end
          else if Ascii.eqb c "t" then
            option_map (pair (VBool true)) (expect "rue" rest)
          else if Ascii.eqb c "f" then
            option_map (pair (VBool false)) (expect "alse" rest)
          else if Ascii.eqb c "n" then
            option_map (pair VNull) (expect "ull" rest)
          else
            match parse_nat (String c rest) with
            | Some (z, after) => Some (VNumber z, after)
            | None => None
            end
      end
  end

with parse_members (fuel : nat) (s : string) (acc : list (string * value))
  {struct fuel} : option (value * string) :=
  match fuel with
  | O => None
  | S fuel' =>
      match skip_ws s with
      | EmptyString => None
      | String c rest =>
          if Ascii.eqb c dquote then
            match parse_chars rest with
            | Some (k, after_key) =>
                match skip_ws after_key with
                | String ":" after_colon =>
                    match parse_value fuel' after_colon with
                    | Some (v, after_value) =>
                        match skip_ws after_value with
                        | String "," more =>
                            parse_members fuel' more (set_field k v acc)
                        | String "}" after =>
                            Some (VObject (set_field k v acc), after)
                        | _ => None
                        end
                    | None => None
                    end
                | _ => None
                end
            | None => None
            end
          else None
      end
  end

with parse_elements (fuel : nat) (s : string) (acc : list value)
  {struct fuel} : option (value * string) :=
  match fuel with
  | O => None
  | S fuel' =>
      match parse_value fuel' s with
      | Some (v, after_value) =>
          match skip_ws after_value with
          | String "," more => parse_elements fuel' more (acc ++ [v])
          | String "]" after => Some (VArray (acc ++ [v]), after)
          | _ => None
          end
      | None => None
      end
  end.

(** [JSON.parse text]; [None] is the SyntaxError.  Each step of the reader
    consumes a character, so the length of the text is fuel enough. *)
Definition parse (text : string) : option value :=
  match parse_value (S (String.length text)) text with
  | Some (v, after) =>
      match skip_ws after with
      | EmptyString => Some v
      | String _ _ => None
      end
  | None => None
  end.

End JSON.

(** ** The page: window, console and the promise of a request *)

(** [MessageToBrowser] and the keys of [MessageFromBrowserObject]. *)
Inductive MessageToBrowser : Type :=
| STATUS_QUERY
| ENABLE_MENU_BUTTON.

Inductive MessageFromBrowserTypes : Type :=
| STATUS_RESPONSE
| ENABLE_MENU_BUTTON_DONE.

Definition request_type (m : MessageToBrowser) : string :=
  match m with
  | STATUS_QUERY => "STATUS_QUERY"
  | ENABLE_MENU_BUTTON => "ENABLE_MENU_BUTTON"
  end.

Definition response_type (t : MessageFromBrowserTypes) : string :=
  match t with
  | STATUS_RESPONSE => "STATUS_RESPONSE"
  | ENABLE_MENU_BUTTON_DONE => "ENABLE_MENU_BUTTON_DONE"
  end.

(** The object literal [{ type: '...' }] of a request. *)
Definition request_object (m : MessageToBrowser) : value :=
  VObject [("type", VString (request_type m))].

Record MessageRequest : Type := {
  message : MessageToBrowser;
  expectedResponse : MessageFromBrowserTypes
}.

(** What a promise is rejected with: a value handed to [reject], an
    [Error] made by [new Error(text)], or the TypeError of reading a
    property of [undefined] or [null]. *)
Inductive thrown : Type :=
| Thrown_value (v : value)
| Thrown_Error (text : string)
| Thrown_TypeError.

Inductive promise_state : Type :=
| Pending
| Fulfilled (v : value)
| Rejected (r : thrown).

Record CustomEvent : Type := {
  event_type : string;
  detail : value
}.

Inductive console_arg : Type :=
| Text (s : string)
| Data (v : value)
| Event (e : CustomEvent).

Inductive console_entry : Type :=
| Console_log (args : list console_arg)
| Console_error (args : list console_arg).

(** [registrations] holds the (type, capture) pairs under which the
    listener of the request is registered on [window]; [removals] counts
    the calls of [removeEventListener]; [resolve_calls] and [reject_calls]
    are the arguments of every call of the two functions of the promise,
    oldest first; [dispatched] holds the events the page dispatched. *)
Record state : Type := {
  registrations : list (string * bool);
  removals : nat;
  promise : promise_state;
  resolve_calls : list value;
  reject_calls : list thrown;
  console : list console_entry;
  dispatched : list CustomEvent
}.

Definition same_registration (a b : string * bool) : bool :=
  (fst a =? fst b)%string && Bool.eqb (snd a) (snd b).

(** [window.addEventListener(type, listener, capture)]: a listener already
    registered under the same type and capture flag is not added again. *)
Definition addEventListener (type : string) (capture : bool) (st : state)
  : state :=
  {| registrations :=
       if existsb (same_registration (type, capture)) (registrations st)
       then registrations st
       else registrations st ++ [(type, capture)];
     removals := removals st;
     promise := promise st;
     resolve_calls := resolve_calls st;
     reject_calls := reject_calls st;
     console := console st;
     dispatched := dispatched st |}.

(** [window.removeEventListener(type, listener, capture)]: only the
    registration with this very type and capture flag goes. *)
Definition removeEventListener (type : string) (capture : bool) (st : state)
  : state :=
  {| registrations :=
       filter (fun r => negb (same_registration (type, capture) r))
              (registrations st);
     removals := S (removals st);
     promise := promise st;
     resolve_calls := resolve_calls st;
     reject_calls := reject_calls st;
     console := console st;
     dispatched := dispatched st |}.

(** Whether an event of this type reaches the listener. *)
Definition registered (type : string) (st : state) : bool :=
  existsb (fun r => (fst r =? type)%string) (registrations st).

Definition console_write (entry : console_entry) (st : state) : state :=
  {| registrations := registrations st;
     removals := removals st;
     promise := promise st;
     resolve_calls := resolve_calls st;
     reject_calls := reject_calls st;
     console := console st ++ [entry];
     dispatched := dispatched st |}.

(** [window.dispatchEvent(event)] by the page.  The listener of the request
    is never registered for the type the page dispatches, so the event is
    only recorded. *)
Definition dispatchEvent (event : CustomEvent) (st : state) : state :=
  {| registrations := registrations st;
     removals := removals st;
     promise := promise st;
     resolve_calls := resolve_calls st;
     reject_calls := reject_calls st;
     console := console st;
     dispatched := dispatched st ++ [event] |}.

(** The two functions a promise hands to its executor.  Every call is
    recorded; only the first call of either settles the promise. *)
Definition resolve (v : value) (st : state) : state :=
  {| registrations := registrations st;
     removals := removals st;
     promise := match promise st with Pending => Fulfilled v | p => p end;
     resolve_calls := resolve_calls st ++ [v];
     reject_calls := reject_calls st;
     console := console st;
     dispatched := dispatched st |}.

Definition reject (r : thrown) (st : state) : state :=
  {| registrations := registrations st;
     removals := removals st;
     promise := match promise st with Pending => Rejected r | p => p end;
     resolve_calls := resolve_calls st;
     reject_calls := reject_calls st ++ [r];
     console := console st;
     dispatched := dispatched st |}.

(** The page before a request: a fresh promise, nothing registered. *)
Definition new_Promise : state :=
  {| registrations := [];
     removals := 0;
     promise := Pending;
     resolve_calls := [];
     reject_calls := [];
     console := [];
     dispatched := [] |}.

Definition settled (st : state) : bool :=
  match promise st with
  | Pending => false
  | _ => true
  end.

(** ** web-channel.js *)

(** A step that may throw before it changes anything: [None] is the
    exception, raised with the state as it was. *)
Definition bind {A B : Type} (m : option A) (k : A -> option B) : option B :=
  match m with
  | Some a => k a
  | None => None
  end.

Notation "'let*' x ':=' m 'in' k" := (bind m (fun x => k))
  (at level 10, x pattern, m at level 100, k at level 200).

Definition LOG_STYLE : string := "font-weight: bold; color: #0a6".

Definition CHANNEL_ID : string := "profiler.firefox.com".

(** The text a string value contributes to a template literal (only
    strings are interpolated below). *)
Definition text_of (v : value) : string :=
  match v with
  | VString s => s
  | _ => ""
  end.

Definition in_quotes (s : string) : string :=
  String JSON.dquote (s ++ String JSON.dquote "").

Section WebChannel.

(** [process.env.NODE_ENV] *)
Variable NODE_ENV : string.

(** The listener created by [_registerOneOffListener(callback, reject)].
    [handled] is the state in which one of the two [return]s inside the
    outer [if] leaves the function; without it control falls through to
    the rejection at the end. *)
Definition listener
    (callback : value -> state -> option (bool * state))
    (reject : thrown -> state -> state)
    (event : CustomEvent) (st : state) : option state :=
  let* id := get (detail event) "id" in
  let* message := get (detail event) "message" in
  let* handled :=
    if strict_eq_string id "profiler.firefox.com"
       && truthy message
       && (typeof message =? "object")%string
    then
      let* error := get message "error" in
      let* type := get message "type" in
      if (typeof error =? "string")%string then
        let st := console_write
                    (Console_error [Text ("[webchannel] %c" ++ text_of error);
                                    Text LOG_STYLE]) st in
        let st := removeEventListener "WebChannelMessageToContent" true st in
        let st := reject (Thrown_value message) st in
        Some (Some st)
      else if (typeof type =? "string")%string then
        let* (found, st) := callback message st in
        if found then
          let st :=
            if (NODE_ENV =? "development")%string then
              console_write
                (Console_log [Text ("[webchannel] %creceived "
                                    ++ in_quotes (text_of type));
                              Text LOG_STYLE; Data message]) st
            else st in
          let st := removeEventListener "WebChannelMessageToContent" true st in
          Some (Some st)
        else Some (Some st)
      else Some None
    else Some None in
  match handled with
  | Some st' => Some st'
  | None =>
      let st := reject (Thrown_Error "A malformed WebChannel event was received.") st in
      let st := console_write
                  (Console_error [Text "[webchannel] %cmalformed event received";
                                  Text LOG_STYLE; Event event]) st in
      Some st
  end.

(** [_registerOneOffListener(callback, reject)]: the closure above is
    registered on [window]. *)
Definition _registerOneOffListener (st : state) : state :=
  addEventListener "WebChannelMessageToContent" true st.

(** [_sendMessage(message)] *)
Definition _sendMessage (message : MessageToBrowser) (st : state) : state :=
  let st :=
    if (NODE_ENV =? "development")%string then
      console_write
        (Console_log [Text ("[webchannel] %csending "
                            ++ in_quotes (request_type message));
                      Text LOG_STYLE; Data (request_object message)]) st
    else st in
  dispatchEvent
    {| event_type := "WebChannelMessageToChrome";
       detail :=
         match JSON.stringify
                 (VObject [("id", VString "profiler.firefox.com");
                           ("message", request_object message)]) with
         | Some text => VString text
         | None => VUndefined
         end |} st.

(** [handleMessage], the callback of [_sendMessageWithResponse]. *)
Definition handleMessage (expectedResponse : MessageFromBrowserTypes)
    (message : value) (st : state) : option (bool * state) :=
  let* type := get message "type" in
  if strict_eq_string type (response_type expectedResponse) then
    (* Deliver the result to the callee, remove the listener. *)
    Some (true, resolve message st)
  else
    (* Keep listening. *)
    Some (false, st).

(** The executor of the promise of [_sendMessageWithResponse]: the state
    of the page once [new Promise(...)] has returned. *)
Definition _sendMessageWithResponse (request : MessageRequest) : state :=
  let st := new_Promise in
  let st := _registerOneOffListener st in
  _sendMessage (message request) st.

(** The listener that [_sendMessageWithResponse] registers for a request
    awaiting [expectedResponse]. *)
Definition request_listener (expectedResponse : MessageFromBrowserTypes)
  : CustomEvent -> state -> option state :=
  listener (handleMessage expectedResponse) reject.

(** The browser dispatches [event] on [window]: the listener runs if it is
    registered for the type of the event; an exception it throws is
    reported by the browser and changes nothing. *)
Definition deliver (expectedResponse : MessageFromBrowserTypes)
    (event : CustomEvent) (st : state) : state :=
  if registered (event_type event) st then
    match request_listener expectedResponse event st with
    | Some st' => st'
    | None => st
    end
  else st.

(** The events the browser dispatches, in order. *)
Definition deliver_all (expectedResponse : MessageFromBrowserTypes)
    (events : list CustomEvent) (st : state) : state :=
  fold_left (fun st event => deliver expectedResponse event st) events st.

End WebChannel.

(** [await p] followed by the rest of an async function: the state of the
    promise the async function returned. *)
Definition await (p : promise_state) (rest : value -> promise_state)
  : promise_state :=
  match p with
  | Pending => Pending
  | Fulfilled v => rest v
  | Rejected r => Rejected r
  end.

Definition queryIsMenuButtonEnabled_request : MessageRequest :=
  {| message := STATUS_QUERY; expectedResponse := STATUS_RESPONSE |}.

(** [queryIsMenuButtonEnabled()]: the promise it returned, when the page
    is in state [st]. *)
Definition queryIsMenuButtonEnabled (st : state) : promise_state :=
  await (promise st)
        (fun response =>
           match get response "menuButtonIsEnabled" with
           | Some flag => Fulfilled flag
           | None => Rejected Thrown_TypeError
           end).

Definition enableMenuButton_request : MessageRequest :=
  {| message := ENABLE_MENU_BUTTON;
     expectedResponse := ENABLE_MENU_BUTTON_DONE |}.

(** [enableMenuButton()]: the response is dropped. *)
Definition enableMenuButton (st : state) : promise_state :=
  await (promise st) (fun _ => Fulfilled VUndefined).

(** An inbound event as the browser builds it. *)
Definition inbound (id message : value) : CustomEvent :=
  {| event_type := "WebChannelMessageToContent";
     detail := VObject [("id", id); ("message", message)] |}.

(** ** The branches of the listener *)

(** Where the listener goes on an event: the TypeError of destructuring a
    [detail] that is [undefined] or [null], the branch of a string [error]
    (lines 104-115), the branch of a string [type] (lines 116-134), or the
    rejection at the end (lines 137-139).  The two branches of the outer
    [if] carry the message and the property that was tested. *)
Inductive branch : Type :=
| Throws
| Remote_error (message error : value)
| Valid_message (message type : value)
| Malformed.

Definition decode (event : CustomEvent) : branch :=
  match get (detail event) "id", get (detail event) "message" with
  | Some id, Some message =>
      if strict_eq_string id "profiler.firefox.com"
         && truthy message
         && (typeof message =? "object")%string
      then
        match get message "error", get message "type" with
        | Some error, Some type =>
            if (typeof error =? "string")%string then
              Remote_error message error
            else if (typeof type =? "string")%string then
              Valid_message message type
            else Malformed
        | _, _ => Throws
        end
      else Malformed
  | _, _ => Throws
  end.

(** The events on which the listener of a request awaiting
    [expectedResponse] calls [resolve] or [reject]. *)
Definition terminal (expectedResponse : MessageFromBrowserTypes)
    (event : CustomEvent) : bool :=
  (event_type event =? "WebChannelMessageToContent")%string
  && match decode event with
     | Throws => false
     | Remote_error _ _ => true
     | Valid_message _ type =>
         strict_eq_string type (response_type expectedResponse)
     | Malformed => true
     end.

(** The request is in flight: its listener is registered as
    [_registerOneOffListener] registers it and its promise is pending. *)
Definition listening (st : state) : Prop :=
  registrations st = [("WebChannelMessageToContent", true)].

Definition in_flight (st : state) : Prop :=
  listening st /\ promise st = Pending.

(** The listener is registered as [_registerOneOffListener] left it and
    was never removed, or it is gone and was removed once. *)
Definition registration_invariant (st : state) : Prop :=
  (listening st /\ removals st = 0%nat)
  \/ (registrations st = [] /\ removals st = 1%nat).

(** Whether property [k] of [message] holds a string. *)
Definition has_string (message : value) (k : string) : bool :=
  match get message k with
  | Some (VString _) => true
  | _ => false
  end.

(** The generic error of line 137. *)
Definition MALFORMED : thrown :=
  Thrown_Error "A malformed WebChannel event was received.".

(** What the last three lines of the listener do. *)
Definition reject_malformed (event : CustomEvent) (st : state) : state :=
  console_write
    (Console_error [Text "[webchannel] %cmalformed event received";
                    Text LOG_STYLE; Event event])
    (reject MALFORMED st).

(** ** The kinds of event, in the words of the specification *)

(** The message of an event that passes the shape check of lines 95-99:
    the channel id and a truthy payload of type object. *)
Definition checked_message (event : CustomEvent) : option value :=
  match get (detail event) "id", get (detail event) "message" with
  | Some id, Some message =>
      if strict_eq_string id CHANNEL_ID
         && truthy message
         && (typeof message =? "object")%string
      then Some message
      else None
  | _, _ => None
  end.

(** A remote error: the checked message carries a string [error]. *)
Definition is_remote_error (event : CustomEvent) : bool :=
  match checked_message event with
  | Some message => has_string message "error"
  | None => false
  end.

(** A malformed event: the checked message has neither a string [error]
    nor a string [type]. *)
Definition is_malformed (event : CustomEvent) : bool :=
  match checked_message event with
  | Some message =>
      negb (has_string message "error") && negb (has_string message "type")
  | None => false
  end.

(** A response of the expected type: the checked message has no string
    [error] and its [type] is the expected string. *)
Definition is_expected_response (expectedResponse : MessageFromBrowserTypes)
    (event : CustomEvent) : bool :=
  match checked_message event with
  | Some message =>
      negb (has_string message "error")
      && match get message "type" with
         | Some (VString name) =>
             (name =? response_type expectedResponse)%string
         | _ => false
         end
  | None => false
  end.

(** An event with an [id] and a [message] to read that fails the shape
    check: another channel id, or a payload that is absent, falsy or not
    of type object. *)
Definition fails_shape_check (event : CustomEvent) : bool :=
  match get (detail event) "id", get (detail event) "message" with
  | Some id, Some message =>
      negb (strict_eq_string id CHANNEL_ID
            && truthy message
            && (typeof message =? "object")%string)
  | _, _ => false
  end.

(** The events that settle the promise of a request awaiting
    [expectedResponse]: the three kinds above and the events that fail the
    shape check, when they are of the type the listener hears. *)
Definition settling (expectedResponse : MessageFromBrowserTypes)
    (event : CustomEvent) : bool :=
  (event_type event =? "WebChannelMessageToContent")%string
  && (is_remote_error event
      || is_malformed event
      || is_expected_response expectedResponse event
      || fails_shape_check event).

(** What the listener writes with [console.error] on an event. *)
Definition error_log (event : CustomEvent) : list console_entry :=
  match decode event with
  | Remote_error _ error =>
      [Console_error [Text ("[webchannel] %c" ++ text_of error);
                      Text LOG_STYLE]]
  | Malformed =>
      [Console_error [Text "[webchannel] %cmalformed event received";
                      Text LOG_STYLE; Event event]]
  | _ => []
  end.

(** ** What a request can come to *)

(** The promise after the listener has run on [event] while the request
    was in flight: what line 114, line 137 or [handleMessage] settles it
    with. *)
Definition outcome (event : CustomEvent) : promise_state :=
  match decode event with
  | Throws => Pending
  | Remote_error message _ => Rejected (Thrown_value message)
  | Valid_message message _ => Fulfilled message
  | Malformed => Rejected MALFORMED
  end.

(** The events on which the listener of a request awaiting
    [expectedResponse] reaches one of its two calls of
    [removeEventListener]. *)
Definition removing (expectedResponse : MessageFromBrowserTypes)
    (event : CustomEvent) : bool :=
  (event_type event =? "WebChannelMessageToContent")%string
  && match decode event with
     | Remote_error _ _ => true
     | Valid_message _ type =>
         strict_eq_string type (response_type expectedResponse)
     | _ => false
     end.

(** A message as [handleMessage] hands it to [resolve]. *)
Definition expected_message (expectedResponse : MessageFromBrowserTypes)
    (message : value) : Prop :=
  truthy message = true
  /\ typeof message = "object"
  /\ get message "type" = Some (VString (response_type expectedResponse)).

(** What the listener hands to [reject]: the generic error, or a message
    with a string [error]. *)
Definition rejection_reason (r : thrown) : Prop :=
  r = MALFORMED
  \/ exists message text,
       r = Thrown_value message
       /\ truthy message = true
       /\ typeof message = "object"
       /\ get message "error" = Some (VString text).

(** Every call of [resolve] and of [reject] so far, and so what the
    promise holds, came from the listener. *)
Definition settlement_invariant (expectedResponse : MessageFromBrowserTypes)
    (st : state) : Prop :=
  Forall (expected_message expectedResponse) (resolve_calls st)
  /\ Forall rejection_reason (reject_calls st)
  /\ (forall message, promise st = Fulfilled message ->
        expected_message expectedResponse message)
  /\ (forall r, promise st = Rejected r -> rejection_reason r).

(** The page without its console. *)
Definition observable (st : state)
  : list (string * bool) * nat * promise_state * list value * list thrown
    * list CustomEvent :=
  (registrations st, removals st, promise st, resolve_calls st,
   reject_calls st, dispatched st).

Definition is_console_error (entry : console_entry) : bool :=
  match entry with
  | Console_error _ => true
  | Console_log _ => false
  end.

(** ** Requests and events used as examples *)

(** A request for the state of the menu button, just sent. *)
Definition status_query_sent : state :=
  _sendMessageWithResponse "production" queryIsMenuButtonEnabled_request.

Definition foreign_event : CustomEvent :=
  inbound (VString "example.com")
          (VObject [("type", VString "STATUS_RESPONSE")]).

Definition malformed_message : value :=
  VObject [("type", VNumber 123)].

Definition malformed_event : CustomEvent :=
  inbound (VString CHANNEL_ID) malformed_message.

Definition error_message : value :=
  VObject [("error", VString "boom")].

Definition error_event : CustomEvent :=
  inbound (VString CHANNEL_ID) error_message.

Definition error_and_type_message : value :=
  VObject [("error", VString "boom"); ("type", VString "STATUS_RESPONSE")].

Definition error_and_type_event : CustomEvent :=
  inbound (VString CHANNEL_ID) error_and_type_message.

Definition status_response : value :=
  VObject [("type", VString "STATUS_RESPONSE");
           ("menuButtonIsEnabled", VBool true)].

Definition status_response_event : CustomEvent :=
  inbound (VString CHANNEL_ID) status_response.

Definition done_response : value :=
  VObject [("type", VString "ENABLE_MENU_BUTTON_DONE")].

Definition done_response_event : CustomEvent :=
  inbound (VString CHANNEL_ID) done_response.

(** ** Properties of the model *)

Lemma typeof_string (v : value) :
  (typeof v =? "string")%string = true <-> exists s, v = VString s.
Proof.
  split.
  - destruct v; simpl; try discriminate. intros _. now exists s.
  - intros [s ->]. reflexivity.
Qed.

Lemma has_string_typeof (message v : value) (k : string) :
  get message k = Some v ->
  has_string message k = (typeof v =? "string")%string.
Proof.
  unfold has_string. intros ->. now destruct v.
Qed.

(** A truthy value of type object is an object or an array: reading one of
    its properties does not throw. *)
Lemma object_get (message : value) (k : string) :
  truthy message = true -> typeof message = "object" ->
  exists v, get message k = Some v.
Proof.
  destruct message; simpl; try discriminate; eauto.
Qed.

Section ListenerFacts.

Variable NODE_ENV : string.

(** The listener, branch by branch. *)
Lemma listener_decode callback event st :
  listener NODE_ENV callback reject event st =
  match decode event with
  | Throws => None
  | Remote_error message error =>
      Some (reject (Thrown_value message)
              (removeEventListener "WebChannelMessageToContent" true
                 (console_write
                    (Console_error [Text ("[webchannel] %c" ++ text_of error);
                                    Text LOG_STYLE]) st)))
  | Valid_message message type =>
      let* (found, st') := callback message st in
      if found then
        Some (removeEventListener "WebChannelMessageToContent" true
                (if (NODE_ENV =? "development")%string then
                   console_write
                     (Console_log [Text ("[webchannel] %creceived "
                                         ++ in_quotes (text_of type));
                                   Text LOG_STYLE; Data message]) st'
                 else st'))
      else Some st'
  | Malformed => Some (reject_malformed event st)
  end.
Proof.
  unfold listener, decode, reject_malformed, bind.
  destruct (get (detail event) "id") as [id|]; [|reflexivity].
  destruct (get (detail event) "message") as [message|]; [|reflexivity].
  destruct (strict_eq_string id "profiler.firefox.com" && truthy message
            && (typeof message =? "object")%string); [|reflexivity].
  destruct (get message "error") as [error|]; [|reflexivity].
  destruct (get message "type") as [type|]; [|reflexivity].
  destruct (typeof error =? "string")%string; [reflexivity|].
  destruct (typeof type =? "string")%string; [|reflexivity].
  destruct (callback message st) as [[[] st']|]; reflexivity.
Qed.

(** The branch of a string [type] hands the callback a message that has
    this [type]. *)
Lemma decode_valid_type event message type :
  decode event = Valid_message message type ->
  get message "type" = Some type.
Proof.
  unfold decode.
  destruct (get (detail event) "id") as [id|]; [|discriminate].
  destruct (get (detail event) "message") as [message'|]; [|discriminate].
  destruct (strict_eq_string id "profiler.firefox.com" && truthy message'
            && (typeof message' =? "object")%string); [|discriminate].
  destruct (get message' "error") as [error|]; [|discriminate].
  destruct (get message' "type") as [type'|] eqn:Htype; [|discriminate].
  destruct (typeof error =? "string")%string; [discriminate|].
  destruct (typeof type' =? "string")%string; [|discriminate].
  intros [= <- <-]. exact Htype.
Qed.

End ListenerFacts.

(** The branch taken by an event that passes the shape check. *)
Lemma decode_checked (event : CustomEvent) (id message : value) :
  get (detail event) "id" = Some id ->
  get (detail event) "message" = Some message ->
  strict_eq_string id CHANNEL_ID = true ->
  truthy message = true ->
  typeof message = "object" ->
  exists error type,
    get message "error" = Some error
    /\ get message "type" = Some type
    /\ decode event =
       if has_string message "error" then Remote_error message error
       else if has_string message "type" then Valid_message message type
       else Malformed.
Proof.
  intros Hid Hmsg Hchan Htruthy Hobj.
  unfold decode. rewrite Hid, Hmsg.
  unfold CHANNEL_ID in Hchan. rewrite Hchan, Htruthy, Hobj.
  destruct (object_get message "error" Htruthy Hobj) as [error He].
  destruct (object_get message "type" Htruthy Hobj) as [type Ht].
  exists error, type.
  rewrite (has_string_typeof _ _ _ He), (has_string_typeof _ _ _ Ht).
  rewrite He, Ht. repeat split; reflexivity.
Qed.

(** The branch taken by an event that fails it. *)
Lemma decode_unchecked (event : CustomEvent) (id message : value) :
  get (detail event) "id" = Some id ->
  get (detail event) "message" = Some message ->
  strict_eq_string id CHANNEL_ID = false
  \/ truthy message = false
  \/ typeof message <> "object" ->
  decode event = Malformed.
Proof.
  intros Hid Hmsg Hforeign. unfold decode. rewrite Hid, Hmsg.
  replace (strict_eq_string id "profiler.firefox.com" && truthy message
           && (typeof message =? "object")%string) with false; [reflexivity|].
  symmetry. destruct Hforeign as [H | [H | H]].
  - unfold CHANNEL_ID in H. now rewrite H.
  - rewrite H. apply andb_false_iff. left. apply andb_false_r.
  - apply andb_false_iff. right. now apply String.eqb_neq.
Qed.

(** *** Once the listener is gone *)

Lemma registered_listening (st : state) :
  listening st -> registered "WebChannelMessageToContent" st = true.
Proof.
  unfold listening, registered. intros ->. reflexivity.
Qed.

Lemma registered_type (st : state) (type : string) :
  listening st ->
  registered type st = (type =? "WebChannelMessageToContent")%string.
Proof.
  unfold listening, registered. intros ->. cbn [existsb fst].
  rewrite orb_false_r. apply String.eqb_sym.
Qed.

Lemma remove_listening (st : state) :
  listening st ->
  registrations (removeEventListener "WebChannelMessageToContent" true st) = [].
Proof.
  unfold listening. simpl. intros ->. reflexivity.
Qed.

Lemma deliver_unregistered NODE_ENV expected event st :
  registrations st = [] -> deliver NODE_ENV expected event st = st.
Proof.
  unfold deliver, registered. intros ->. reflexivity.
Qed.

Lemma deliver_all_unregistered NODE_ENV expected events st :
  registrations st = [] -> deliver_all NODE_ENV expected events st = st.
Proof.
  intros Hnone. unfold deliver_all.
  induction events as [|event events IH]; simpl.
  - reflexivity.
  - rewrite deliver_unregistered by assumption. exact IH.
Qed.

(** ** Events that fail the shape check *)

(** C1, as amended: an inbound event whose [id] is not the channel id, or
    whose [message] is absent, falsy or not of type object, is not ignored:
    the listener never reaches the response callback (nothing is resolved)
    and rejects the promise with the generic malformed-event error. *)
Theorem foreign_event_is_rejected
    (NODE_ENV : string) (callback : value -> state -> option (bool * state))
    (event : CustomEvent) (st : state) (id message : value) :
  get (detail event) "id" = Some id ->
  get (detail event) "message" = Some message ->
  strict_eq_string id CHANNEL_ID = false
  \/ truthy message = false
  \/ typeof message <> "object" ->
  let st' := reject_malformed event st in
  listener NODE_ENV callback reject event st = Some st'
  /\ resolve_calls st' = resolve_calls st
  /\ reject_calls st' = (reject_calls st ++ [MALFORMED])%list
  /\ (promise st = Pending -> promise st' = Rejected MALFORMED).
Proof.
  intros Hid Hmsg Hforeign st'. subst st'.
  repeat split.
  - rewrite listener_decode.
    now rewrite (decode_unchecked event id message Hid Hmsg Hforeign).
  - simpl. intros ->. reflexivity.
Qed.

Lemma foreign_event_is_rejected_witness :
  let st' := reject_malformed foreign_event status_query_sent in
  listener "production" (handleMessage STATUS_RESPONSE) reject
           foreign_event status_query_sent = Some st'
  /\ resolve_calls st' = resolve_calls status_query_sent
  /\ reject_calls st' = (reject_calls status_query_sent ++ [MALFORMED])%list
  /\ (promise status_query_sent = Pending -> promise st' = Rejected MALFORMED).
Proof.
  apply (foreign_event_is_rejected "production" (handleMessage STATUS_RESPONSE)
           foreign_event status_query_sent
           (VString "example.com")
           (VObject [("type", VString "STATUS_RESPONSE")])).
  - reflexivity.
  - reflexivity.
  - left. reflexivity.
Defined.

(** C1, as stated, fails: the request is in flight, the event carries the
    id of another channel, and the promise is rejected. *)
Lemma foreign_event_not_ignored :
  strict_eq_string (VString "example.com") CHANNEL_ID = false
  /\ promise status_query_sent = Pending
  /\ reject_calls status_query_sent = []
  /\ promise (deliver "production" STATUS_RESPONSE foreign_event status_query_sent)
     = Rejected MALFORMED
  /\ reject_calls (deliver "production" STATUS_RESPONSE foreign_event
                     status_query_sent)
     = [MALFORMED].
Proof.
  repeat split; reflexivity.
Qed.

(** ** Remote errors *)

(** C5: on an inbound event with the channel id whose object [message]
    carries a string [error], the listener removes itself and rejects the
    pending promise with the message itself; nothing is resolved, and no
    later event changes anything. *)
Theorem remote_error_rejects_with_message
    (NODE_ENV : string) (callback : value -> state -> option (bool * state))
    (event : CustomEvent) (st : state) (id message : value) (text : string) :
  get (detail event) "id" = Some id ->
  get (detail event) "message" = Some message ->
  strict_eq_string id CHANNEL_ID = true ->
  truthy message = true ->
  typeof message = "object" ->
  get message "error" = Some (VString text) ->
  in_flight st ->
  exists st',
    listener NODE_ENV callback reject event st = Some st'
    /\ registrations st' = []
    /\ removals st' = S (removals st)
    /\ promise st' = Rejected (Thrown_value message)
    /\ reject_calls st' = (reject_calls st ++ [Thrown_value message])%list
    /\ resolve_calls st' = resolve_calls st
    /\ forall expected events,
         deliver_all NODE_ENV expected events st' = st'.
Proof.
  intros Hid Hmsg Hchan Htruthy Hobj Herr [Hlisten Hpending].
  destruct (decode_checked event id message Hid Hmsg Hchan Htruthy Hobj)
    as (error & type & He & _ & Hdecode).
  rewrite Herr in He. injection He as <-.
  rewrite listener_decode, Hdecode. unfold has_string. rewrite Herr.
  cbn [text_of].
  eexists. split; [reflexivity|].
  assert (Hgone :
    registrations
      (reject (Thrown_value message)
         (removeEventListener "WebChannelMessageToContent" true
            (console_write
               (Console_error [Text ("[webchannel] %c" ++ text); Text LOG_STYLE])
               st))) = []).
  { simpl. rewrite Hlisten. reflexivity. }
  repeat split.
  - exact Hgone.
  - simpl. rewrite Hpending. reflexivity.
  - intros expected events. now apply deliver_all_unregistered.
Qed.

Lemma remote_error_rejects_with_message_witness :
  exists st',
    listener "production" (handleMessage STATUS_RESPONSE) reject
             error_event status_query_sent = Some st'
    /\ registrations st' = []
    /\ removals st' = S (removals status_query_sent)
    /\ promise st' = Rejected (Thrown_value error_message)
    /\ reject_calls st'
       = (reject_calls status_query_sent ++ [Thrown_value error_message])%list
    /\ resolve_calls st' = resolve_calls status_query_sent
    /\ forall expected events,
         deliver_all "production" expected events st' = st'.
Proof.
  apply (remote_error_rejects_with_message "production"
           (handleMessage STATUS_RESPONSE) error_event status_query_sent
           (VString CHANNEL_ID) error_message "boom").
  - reflexivity.
  - reflexivity.
  - reflexivity.
  - reflexivity.
  - reflexivity.
  - reflexivity.
  - split; reflexivity.
Defined.

(** C10: when the message carries a string [type], a string [error] still
    wins: the listener logs the error, removes itself and rejects with the
    message, whatever the callback is, so the callback is never run, also
    when [type] is the expected response type; an [error] that is not a
    string is passed over and the message goes to the callback, which
    resolves and has the listener removed on the expected type and
    changes nothing on another. *)
Theorem error_check_precedes_type_check
    (NODE_ENV : string) (callback : value -> state -> option (bool * state))
    (event : CustomEvent) (st : state) (id message : value) (type : string) :
  get (detail event) "id" = Some id ->
  get (detail event) "message" = Some message ->
  strict_eq_string id CHANNEL_ID = true ->
  truthy message = true ->
  typeof message = "object" ->
  get message "type" = Some (VString type) ->
  (forall text, get message "error" = Some (VString text) ->
     exists st',
       listener NODE_ENV callback reject event st = Some st'
       /\ st' = reject (Thrown_value message)
                  (removeEventListener "WebChannelMessageToContent" true
                     (console_write
                        (Console_error [Text ("[webchannel] %c" ++ text);
                                        Text LOG_STYLE]) st))
       /\ removals st' = S (removals st)
       /\ (listening st -> registrations st' = [])
       /\ resolve_calls st' = resolve_calls st
       /\ reject_calls st' = (reject_calls st ++ [Thrown_value message])%list
       /\ (promise st = Pending ->
           promise st' = Rejected (Thrown_value message)))
  /\ (forall text expected,
        get message "error" = Some (VString text) ->
        type = response_type expected ->
        exists st',
          request_listener NODE_ENV expected event st = Some st'
          /\ removals st' = S (removals st)
          /\ (listening st -> registrations st' = [])
          /\ resolve_calls st' = resolve_calls st
          /\ reject_calls st' = (reject_calls st ++ [Thrown_value message])%list
          /\ (promise st = Pending ->
              promise st' = Rejected (Thrown_value message)))
  /\ (has_string message "error" = false ->
      listener NODE_ENV callback reject event st =
      let* (found, st') := callback message st in
      if found then
        Some (removeEventListener "WebChannelMessageToContent" true
                (if (NODE_ENV =? "development")%string then
                   console_write
                     (Console_log [Text ("[webchannel] %creceived "
                                         ++ in_quotes type);
                                   Text LOG_STYLE; Data message]) st'
                 else st'))
      else Some st')
  /\ (has_string message "error" = false ->
      forall expected,
        (type <> response_type expected ->
         request_listener NODE_ENV expected event st = Some st)
        /\ (type = response_type expected ->
            exists st',
              request_listener NODE_ENV expected event st = Some st'
              /\ removals st' = S (removals st)
              /\ (listening st -> registrations st' = [])
              /\ resolve_calls st' = (resolve_calls st ++ [message])%list
              /\ reject_calls st' = reject_calls st
              /\ (promise st = Pending -> promise st' = Fulfilled message))).
Proof.
  intros Hid Hmsg Hchan Htruthy Hobj Htype.
  destruct (decode_checked event id message Hid Hmsg Hchan Htruthy Hobj)
    as (error & type' & He & Ht & Hdecode).
  rewrite Htype in Ht. injection Ht as <-.
  assert (Herror : forall callback' text,
    get message "error" = Some (VString text) ->
    listener NODE_ENV callback' reject event st =
    Some (reject (Thrown_value message)
            (removeEventListener "WebChannelMessageToContent" true
               (console_write
                  (Console_error [Text ("[webchannel] %c" ++ text);
                                  Text LOG_STYLE]) st)))).
  { intros callback' text Herr. rewrite listener_decode, Hdecode.
    rewrite Herr in He. injection He as <-.
    unfold has_string. rewrite Herr. reflexivity. }
  assert (Hrejected : forall text,
    let st' := reject (Thrown_value message)
                 (removeEventListener "WebChannelMessageToContent" true
                    (console_write
                       (Console_error [Text ("[webchannel] %c" ++ text);
                                       Text LOG_STYLE]) st)) in
    removals st' = S (removals st)
    /\ (listening st -> registrations st' = [])
    /\ resolve_calls st' = resolve_calls st
    /\ reject_calls st' = (reject_calls st ++ [Thrown_value message])%list
    /\ (promise st = Pending -> promise st' = Rejected (Thrown_value message))).
  { intros text st'. subst st'.
    cbn [removals registrations resolve_calls reject_calls promise reject
         removeEventListener console_write].
    split; [reflexivity|]. split.
    { unfold listening. intros ->. reflexivity. }
    split; [reflexivity|]. split; [reflexivity|].
    intros ->. reflexivity. }
  assert (Hcallback :
    has_string message "error" = false ->
    forall callback',
      listener NODE_ENV callback' reject event st =
      let* (found, st') := callback' message st in
      if found then
        Some (removeEventListener "WebChannelMessageToContent" true
                (if (NODE_ENV =? "development")%string then
                   console_write
                     (Console_log [Text ("[webchannel] %creceived "
                                         ++ in_quotes type);
                                   Text LOG_STYLE; Data message]) st'
                 else st'))
      else Some st').
  { intros Hnone callback'. rewrite listener_decode, Hdecode, Hnone.
    unfold has_string. rewrite Htype. reflexivity. }
  split; [|split; [|split]].
  - intros text Herr. eexists. split; [exact (Herror _ text Herr)|].
    split; [reflexivity|]. apply Hrejected.
  - intros text expected Herr _. unfold request_listener.
    eexists. split; [exact (Herror _ text Herr)|]. apply Hrejected.
  - intros Hnone. now apply Hcallback.
  - intros Hnone expected. unfold request_listener.
    rewrite (Hcallback Hnone). unfold handleMessage. rewrite Htype.
    unfold bind, strict_eq_string. split.
    + intros Hother. apply String.eqb_neq in Hother. now rewrite Hother.
    + intros Hsame. apply String.eqb_eq in Hsame. rewrite Hsame.
      eexists. split; [reflexivity|].
      destruct (NODE_ENV =? "development")%string;
        cbn [removals registrations resolve_calls reject_calls promise
             resolve removeEventListener console_write];
        (split; [reflexivity|]);
        (split; [unfold listening; intros ->; reflexivity|]);
        (split; [reflexivity|]); (split; [reflexivity|]);
        intros ->; reflexivity.
Qed.

Lemma error_check_precedes_type_check_witness :
  exists st',
    listener "development" (handleMessage STATUS_RESPONSE) reject
             error_and_type_event status_query_sent = Some st'
    /\ removals st' = 1%nat
    /\ registrations st' = []
    /\ resolve_calls st' = []
    /\ reject_calls st' = [Thrown_value error_and_type_message]
    /\ promise st' = Rejected (Thrown_value error_and_type_message).
Proof.
  destruct (proj1 (error_check_precedes_type_check "development"
                     (handleMessage STATUS_RESPONSE) error_and_type_event
                     status_query_sent (VString CHANNEL_ID)
                     error_and_type_message "STATUS_RESPONSE"
                     eq_refl eq_refl eq_refl eq_refl eq_refl eq_refl)
              "boom" eq_refl)
    as (st' & Hlistener & _ & Hremovals & Hgone & Hresolved & Hrejected
        & Hpromise).
  exists st'. split; [exact Hlistener|].
  split; [exact Hremovals|].
  split; [apply Hgone; reflexivity|].
  split; [exact Hresolved|].
  split; [exact Hrejected|].
  apply Hpromise. reflexivity.
Defined.

(** ** Valid messages *)

(** C4: a valid message (channel id, object payload, string [type], no
    string [error]) whose [type] is not the expected one leaves the state
    of the page as it was; one whose [type] is the expected one removes
    the listener and resolves the pending promise with the message itself,
    after which no event changes anything. *)
Theorem valid_message_resolves_on_expected_type
    (NODE_ENV : string) (expected : MessageFromBrowserTypes)
    (event : CustomEvent) (st : state) (id message : value) (type : string) :
  get (detail event) "id" = Some id ->
  get (detail event) "message" = Some message ->
  strict_eq_string id CHANNEL_ID = true ->
  truthy message = true ->
  typeof message = "object" ->
  has_string message "error" = false ->
  get message "type" = Some (VString type) ->
  in_flight st ->
  (type <> response_type expected ->
   request_listener NODE_ENV expected event st = Some st)
  /\ (type = response_type expected ->
      exists st',
        request_listener NODE_ENV expected event st = Some st'
        /\ registrations st' = []
        /\ removals st' = S (removals st)
        /\ promise st' = Fulfilled message
        /\ resolve_calls st' = (resolve_calls st ++ [message])%list
        /\ reject_calls st' = reject_calls st
        /\ forall events, deliver_all NODE_ENV expected events st' = st').
Proof.
  intros Hid Hmsg Hchan Htruthy Hobj Hnone Htype [Hlisten Hpending].
  destruct (decode_checked event id message Hid Hmsg Hchan Htruthy Hobj)
    as (error & type' & _ & Ht & Hdecode).
  rewrite Htype in Ht. injection Ht as <-.
  unfold request_listener. rewrite listener_decode, Hdecode, Hnone.
  unfold has_string. rewrite Htype.
  unfold handleMessage. rewrite Htype. unfold bind, strict_eq_string.
  split.
  - intros Hother. apply String.eqb_neq in Hother. now rewrite Hother.
  - intros Hsame. apply String.eqb_eq in Hsame. rewrite Hsame.
    eexists. split; [reflexivity|].
    assert (Hgone : forall st0, registrations st0 = registrations st ->
              registrations
                (removeEventListener "WebChannelMessageToContent" true st0) = []).
    { intros st0 Hst0. simpl. rewrite Hst0, Hlisten. reflexivity. }
    destruct (NODE_ENV =? "development")%string.
    + repeat split.
      * now apply Hgone.
      * simpl. now rewrite Hpending.
      * intros events. apply deliver_all_unregistered. now apply Hgone.
    + repeat split.
      * now apply Hgone.
      * simpl. now rewrite Hpending.
      * intros events. apply deliver_all_unregistered. now apply Hgone.
Qed.

Lemma valid_message_resolves_on_expected_type_witness :
  ("STATUS_RESPONSE" <> response_type STATUS_RESPONSE ->
   request_listener "production" STATUS_RESPONSE status_response_event
                    status_query_sent = Some status_query_sent)
  /\ ("STATUS_RESPONSE" = response_type STATUS_RESPONSE ->
      exists st',
        request_listener "production" STATUS_RESPONSE status_response_event
                         status_query_sent = Some st'
        /\ registrations st' = []
        /\ removals st' = S (removals status_query_sent)
        /\ promise st' = Fulfilled status_response
        /\ resolve_calls st'
           = (resolve_calls status_query_sent ++ [status_response])%list
        /\ reject_calls st' = reject_calls status_query_sent
        /\ forall events,
             deliver_all "production" STATUS_RESPONSE events st' = st').
Proof.
  apply (valid_message_resolves_on_expected_type "production" STATUS_RESPONSE
           status_response_event status_query_sent
           (VString CHANNEL_ID) status_response "STATUS_RESPONSE").
  - reflexivity.
  - reflexivity.
  - reflexivity.
  - reflexivity.
  - reflexivity.
  - reflexivity.
  - reflexivity.
  - split; reflexivity.
Defined.

(** ** The life of a request *)

Section Lifecycle.

Variable NODE_ENV : string.
Variable expected : MessageFromBrowserTypes.

(** A settled promise keeps its state, whatever the listener still does. *)
Lemma deliver_settled event st :
  promise st <> Pending ->
  promise (deliver NODE_ENV expected event st) = promise st.
Proof.
  intros Hsettled. unfold deliver, request_listener.
  destruct (registered (event_type event) st); [|reflexivity].
  rewrite listener_decode.
  destruct (decode event) as [|message error|message type|];
    unfold handleMessage, bind, reject_malformed.
  - reflexivity.
  - cbn [promise reject removeEventListener console_write].
    now destruct (promise st).
  - destruct (get message "type") as [type'|]; [|reflexivity].
    destruct (strict_eq_string type' (response_type expected)); [|reflexivity].
    destruct (NODE_ENV =? "development")%string;
      cbn [promise resolve removeEventListener console_write];
      now destruct (promise st).
  - cbn [promise reject console_write]. now destruct (promise st).
Qed.

Lemma deliver_all_settled events st :
  promise st <> Pending ->
  promise (deliver_all NODE_ENV expected events st) = promise st.
Proof.
  revert st. unfold deliver_all.
  induction events as [|event events IH]; intros st Hsettled; simpl.
  - reflexivity.
  - rewrite IH.
    + now apply deliver_settled.
    + now rewrite deliver_settled.
Qed.

(** An event that is not terminal leaves the page as it was. *)
Lemma deliver_not_terminal event st :
  registrations st = [] \/ listening st ->
  terminal expected event = false ->
  deliver NODE_ENV expected event st = st.
Proof.
  intros [Hnone | Hlisten] Hquiet.
  - now apply deliver_unregistered.
  - unfold deliver. rewrite (registered_type st _ Hlisten).
    unfold terminal in Hquiet.
    destruct (event_type event =? "WebChannelMessageToContent")%string;
      [|reflexivity].
    rewrite andb_true_l in Hquiet.
    unfold request_listener. rewrite listener_decode.
    destruct (decode event) as [|message error|message type|] eqn:Hdecode;
      try discriminate.
    + reflexivity.
    + unfold handleMessage. rewrite (decode_valid_type _ _ _ Hdecode).
      unfold bind. rewrite Hquiet. reflexivity.
Qed.

(** A terminal event settles the promise of a request in flight. *)
Lemma deliver_terminal event st :
  in_flight st ->
  terminal expected event = true ->
  promise (deliver NODE_ENV expected event st) <> Pending.
Proof.
  intros [Hlisten Hpending] Hterminal.
  unfold deliver. rewrite (registered_type st _ Hlisten).
  unfold terminal in Hterminal.
  destruct (event_type event =? "WebChannelMessageToContent")%string;
    [|discriminate].
  rewrite andb_true_l in Hterminal.
  unfold request_listener. rewrite listener_decode.
  destruct (decode event) as [|message error|message type|] eqn:Hdecode;
    try discriminate.
  - cbn [promise reject removeEventListener console_write].
    rewrite Hpending. discriminate.
  - unfold handleMessage. rewrite (decode_valid_type _ _ _ Hdecode).
    unfold bind. rewrite Hterminal.
    destruct (NODE_ENV =? "development")%string;
      cbn [promise resolve removeEventListener console_write];
      rewrite Hpending; discriminate.
  - unfold reject_malformed. cbn [promise reject console_write].
    rewrite Hpending. discriminate.
Qed.

Lemma deliver_registration_invariant event st :
  registration_invariant st ->
  registration_invariant (deliver NODE_ENV expected event st).
Proof.
  intros [[Hlisten Hzero] | [Hnone Hone]].
  2:{ rewrite deliver_unregistered by assumption. right. now split. }
  assert (Hremoved : forall st0,
            registrations st0 = registrations st -> removals st0 = removals st ->
            registration_invariant
              (removeEventListener "WebChannelMessageToContent" true st0)).
  { intros st0 Hregs Hrem. right. simpl. rewrite Hregs, Hrem, Hlisten, Hzero.
    now split. }
  assert (Hsame : registration_invariant st) by (left; now split).
  unfold deliver, request_listener.
  destruct (registered (event_type event) st); [|exact Hsame].
  rewrite listener_decode.
  destruct (decode event) as [|message error|message type|];
    unfold handleMessage, bind.
  - exact Hsame.
  - right. cbn [registrations removals reject removeEventListener
                console_write].
    rewrite Hlisten, Hzero. now split.
  - destruct (get message "type") as [type'|]; [|exact Hsame].
    destruct (strict_eq_string type' (response_type expected)); [|exact Hsame].
    destruct (NODE_ENV =? "development")%string; now apply Hremoved.
  - left. split; [exact Hlisten | exact Hzero].
Qed.

Lemma deliver_all_registration_invariant events st :
  registration_invariant st ->
  registration_invariant (deliver_all NODE_ENV expected events st).
Proof.
  revert st. unfold deliver_all.
  induction events as [|event events IH]; intros st Hinv; simpl.
  - exact Hinv.
  - apply IH. now apply deliver_registration_invariant.
Qed.

End Lifecycle.

Lemma sent_in_flight NODE_ENV request :
  in_flight (_sendMessageWithResponse NODE_ENV request).
Proof.
  unfold _sendMessageWithResponse, _sendMessage.
  destruct (NODE_ENV =? "development")%string; split; reflexivity.
Qed.

Lemma sent_registration_invariant NODE_ENV request :
  registration_invariant (_sendMessageWithResponse NODE_ENV request).
Proof.
  left. split.
  - apply sent_in_flight.
  - unfold _sendMessageWithResponse, _sendMessage.
    destruct (NODE_ENV =? "development")%string; reflexivity.
Qed.

(** The listener is removed at most once in the life of a request. *)
Lemma removed_at_most_once NODE_ENV request events :
  (removals (deliver_all NODE_ENV (expectedResponse request) events
               (_sendMessageWithResponse NODE_ENV request)) <= 1)%nat.
Proof.
  destruct (deliver_all_registration_invariant NODE_ENV
              (expectedResponse request) events _
              (sent_registration_invariant NODE_ENV request))
    as [[_ H] | [_ H]]; rewrite H; lia.
Qed.

(** Until a terminal event arrives the request stays as it was sent. *)
Lemma pending_while_no_terminal_event NODE_ENV expected events st :
  in_flight st ->
  promise (deliver_all NODE_ENV expected events st) = Pending
  <-> forallb (fun event => negb (terminal expected event)) events = true.
Proof.
  revert st.
  induction events as [|event events IH]; intros st Hflight.
  - simpl. split; [reflexivity | intros _; apply Hflight].
  - change (deliver_all NODE_ENV expected (event :: events) st)
      with (deliver_all NODE_ENV expected events
              (deliver NODE_ENV expected event st)).
    cbn [forallb].
    destruct (terminal expected event) eqn:Hterminal; cbn [negb andb].
    + split; [|discriminate].
      intros Hpending. exfalso.
      apply (deliver_terminal NODE_ENV expected event st Hflight Hterminal).
      rewrite <- Hpending. symmetry. apply deliver_all_settled.
      now apply deliver_terminal.
    + rewrite deliver_not_terminal; [now apply IH | | assumption].
      right. apply Hflight.
Qed.

(** The promise of a request is pending exactly as long as no terminal
    event was delivered. *)
Lemma settles_only_on_terminal_event
    (NODE_ENV : string) (request : MessageRequest)
    (events : list CustomEvent) :
  promise (deliver_all NODE_ENV (expectedResponse request) events
             (_sendMessageWithResponse NODE_ENV request)) = Pending
  <-> forallb (fun event => negb (terminal (expectedResponse request) event))
              events = true.
Proof.
  apply pending_while_no_terminal_event. apply sent_in_flight.
Qed.

(** ** Malformed events and the listener *)

(** On the last three lines the listener touches neither its registration
    nor the count of removals. *)
Lemma reject_malformed_keeps_listener (event : CustomEvent) (st : state) :
  registrations (reject_malformed event st) = registrations st
  /\ removals (reject_malformed event st) = removals st.
Proof.
  split; reflexivity.
Qed.

(** C3, on the code: the event [{ type: 123 }] with the channel id has
    neither a string [error] nor a string [type]; the promise is rejected
    with the generic error, and the listener is still registered and was
    not removed. *)
Theorem malformed_event_keeps_listener :
  let st' := deliver "production" STATUS_RESPONSE malformed_event
                     status_query_sent in
  has_string malformed_message "error" = false
  /\ has_string malformed_message "type" = false
  /\ in_flight status_query_sent
  /\ promise st' = Rejected MALFORMED
  /\ registrations st' = [("WebChannelMessageToContent", true)]
  /\ removals st' = 0%nat
  /\ registered "WebChannelMessageToContent" st' = true.
Proof.
  repeat split; reflexivity.
Qed.

(** C2, on the code: after a malformed event has settled the promise the
    listener is still registered, so a second malformed event calls
    [reject] once more and a later response calls [resolve]; the state of
    the promise itself stays what the first call made it. *)
Theorem listener_outlives_rejection :
  let st1 := deliver "production" STATUS_RESPONSE malformed_event
                     status_query_sent in
  let st2 := deliver "production" STATUS_RESPONSE malformed_event st1 in
  let st3 := deliver "production" STATUS_RESPONSE status_response_event st1 in
  promise st1 = Rejected MALFORMED
  /\ listening st1
  /\ reject_calls st2 = [MALFORMED; MALFORMED]
  /\ promise st2 = Rejected MALFORMED
  /\ resolve_calls st3 = [status_response]
  /\ promise st3 = Rejected MALFORMED.
Proof.
  repeat split; reflexivity.
Qed.

(** ** Sending *)

Lemma _sendMessage_dispatched NODE_ENV message st :
  dispatched (_sendMessage NODE_ENV message st)
  = (dispatched st
     ++ [{| event_type := "WebChannelMessageToChrome";
            detail :=
              match JSON.stringify
                      (VObject [("id", VString "profiler.firefox.com");
                                ("message", request_object message)]) with
              | Some text => VString text
              | None => VUndefined
              end |}])%list.
Proof.
  unfold _sendMessage. destruct (NODE_ENV =? "development")%string; reflexivity.
Qed.

(** C8: [_sendMessage] adds exactly one event to those dispatched, of type
    [WebChannelMessageToChrome], whose detail is one string, for every
    message: the text that reads back as the object with the channel id
    and the message; the listener and the promise are left alone. *)
Theorem _sendMessage_dispatches_envelope
    (NODE_ENV : string) (message : MessageToBrowser) (st : state) :
  exists text,
    dispatched (_sendMessage NODE_ENV message st)
    = (dispatched st
       ++ [{| event_type := "WebChannelMessageToChrome";
              detail := VString text |}])%list
    /\ JSON.parse text
       = Some (VObject [("id", VString CHANNEL_ID);
                        ("message", request_object message)])
    /\ registrations (_sendMessage NODE_ENV message st) = registrations st
    /\ promise (_sendMessage NODE_ENV message st) = promise st.
Proof.
  rewrite _sendMessage_dispatched.
  destruct message; eexists; (split; [reflexivity|]);
    (split; [vm_compute; reflexivity|]);
    unfold _sendMessage; destruct (NODE_ENV =? "development")%string;
    split; reflexivity.
Qed.

(** C7: for both requests, the text [_sendMessage] dispatches, read back
    and delivered as the detail of an inbound event, takes the listener to
    the branch of valid messages with the [type] of the request: the
    message reaches the callback, and its [type] is that of the request. *)
Theorem envelope_round_trip
    (NODE_ENV : string) (message : MessageToBrowser) (st : state) :
  exists text payload received,
    dispatched (_sendMessage NODE_ENV message st)
    = (dispatched st
       ++ [{| event_type := "WebChannelMessageToChrome";
              detail := VString text |}])%list
    /\ JSON.parse text = Some payload
    /\ decode {| event_type := "WebChannelMessageToContent";
                 detail := payload |}
       = Valid_message received (VString (request_type message))
    /\ get received "type" = Some (VString (request_type message))
    /\ forall callback st0,
         listener NODE_ENV callback reject
                  {| event_type := "WebChannelMessageToContent";
                     detail := payload |} st0
         = let* (found, st1) := callback received st0 in
           if found then
             Some (removeEventListener "WebChannelMessageToContent" true
                     (if (NODE_ENV =? "development")%string then
                        console_write
                          (Console_log
                             [Text ("[webchannel] %creceived "
                                    ++ in_quotes (request_type message));
                              Text LOG_STYLE; Data received]) st1
                      else st1))
           else Some st1.
Proof.
  rewrite _sendMessage_dispatched.
  destruct message; do 3 eexists;
    (split; [reflexivity|]); (split; [vm_compute; reflexivity|]);
    (split; [reflexivity|]); (split; [reflexivity|]);
    intros callback st0; rewrite listener_decode; reflexivity.
Qed.

(** ** The request for the state of the menu button *)

Lemma deliver_all_app NODE_ENV expected events events' st :
  deliver_all NODE_ENV expected (events ++ events') st
  = deliver_all NODE_ENV expected events'
      (deliver_all NODE_ENV expected events st).
Proof.
  unfold deliver_all. apply fold_left_app.
Qed.

Lemma deliver_all_not_terminal NODE_ENV expected events st :
  listening st ->
  forallb (fun event => negb (terminal expected event)) events = true ->
  deliver_all NODE_ENV expected events st = st.
Proof.
  intros Hlisten. induction events as [|event events IH]; intros Hquiet.
  - reflexivity.
  - cbn [forallb] in Hquiet. apply andb_true_iff in Hquiet as [Hevent Hrest].
    apply negb_true_iff in Hevent.
    change (deliver_all NODE_ENV expected (event :: events) st)
      with (deliver_all NODE_ENV expected events
              (deliver NODE_ENV expected event st)).
    rewrite deliver_not_terminal; [now apply IH | now right | assumption].
Qed.




(** The response of the specification's example resolves the call to
    [true]. *)
Example status_response_resolves_to_true :
  queryIsMenuButtonEnabled
    (deliver "production" STATUS_RESPONSE status_response_event
       status_query_sent)
  = Fulfilled (VBool true).
Proof.
  reflexivity.
Qed.

(** ** Further properties of the listener *)

(** What the branch of a string [error] knows of its message. *)
Lemma decode_remote_error event message error :
  decode event = Remote_error message error ->
  truthy message = true
  /\ typeof message = "object"
  /\ exists text, error = VString text
                  /\ get message "error" = Some (VString text).
Proof.
  unfold decode.
  destruct (get (detail event) "id") as [id|]; [|discriminate].
  destruct (get (detail event) "message") as [message'|]; [|discriminate].
  destruct (strict_eq_string id "profiler.firefox.com" && truthy message'
            && (typeof message' =? "object")%string) eqn:Hguard;
    [|discriminate].
  apply andb_true_iff in Hguard as [Hguard Hobj].
  apply andb_true_iff in Hguard as [_ Htruthy].
  apply String.eqb_eq in Hobj.
  destruct (get message' "error") as [error'|] eqn:Herror; [|discriminate].
  destruct (get message' "type") as [type|]; [|discriminate].
  destruct (typeof error' =? "string")%string eqn:Hstring.
  - intros [= <- <-]. apply typeof_string in Hstring as [text ->].
    repeat split; try assumption. now exists text.
  - destruct (typeof type =? "string")%string; discriminate.
Qed.

(** What the branch of a string [type] knows of its message. *)
Lemma decode_valid_message event message type :
  decode event = Valid_message message type ->
  truthy message = true
  /\ typeof message = "object"
  /\ exists name, type = VString name
                  /\ get message "type" = Some (VString name).
Proof.
  unfold decode.
  destruct (get (detail event) "id") as [id|]; [|discriminate].
  destruct (get (detail event) "message") as [message'|]; [|discriminate].
  destruct (strict_eq_string id "profiler.firefox.com" && truthy message'
            && (typeof message' =? "object")%string) eqn:Hguard;
    [|discriminate].
  apply andb_true_iff in Hguard as [Hguard Hobj].
  apply andb_true_iff in Hguard as [_ Htruthy].
  apply String.eqb_eq in Hobj.
  destruct (get message' "error") as [error|]; [|discriminate].
  destruct (get message' "type") as [type'|] eqn:Htype; [|discriminate].
  destruct (typeof error =? "string")%string; [discriminate|].
  destruct (typeof type' =? "string")%string eqn:Hstring; [|discriminate].
  intros [= <- <-]. apply typeof_string in Hstring as [name ->].
  repeat split; try assumption. now exists name.
Qed.

(** The destructuring of line 92 is the only place that throws. *)
Lemma decode_throws event :
  decode event = Throws <-> detail event = VUndefined \/ detail event = VNull.
Proof.
  unfold decode. split.
  - destruct (detail event) as [| | | | | |fields] eqn:Hdetail; auto;
      cbn [get].
    all: match goal with
         | |- context [truthy ?m && _] =>
             destruct (strict_eq_string VUndefined "profiler.firefox.com"
                       && truthy m && (typeof m =? "object")%string)
               eqn:Hguard
         | _ => idtac
         end; try discriminate.
    destruct (strict_eq_string (lookup "id" fields) "profiler.firefox.com"
              && truthy (lookup "message" fields)
              && (typeof (lookup "message" fields) =? "object")%string)
      eqn:Hguard; [|discriminate].
    apply andb_true_iff in Hguard as [Hguard Hobj].
    apply andb_true_iff in Hguard as [_ Htruthy].
    apply String.eqb_eq in Hobj.
    destruct (object_get _ "error" Htruthy Hobj) as [error ->].
    destruct (object_get _ "type" Htruthy Hobj) as [type ->].
    destruct (typeof error =? "string")%string; [discriminate|].
    destruct (typeof type =? "string")%string; discriminate.
  - intros [-> | ->]; reflexivity.
Qed.

Section Deliveries.

Variable NODE_ENV : string.
Variable expected : MessageFromBrowserTypes.

(** One delivery, by what the listener did: nothing, lines 108-114, the
    callback and lines 120-131, or lines 137-139. *)
Lemma deliver_cases event st :
  deliver NODE_ENV expected event st = st
  \/ (exists message error,
        decode event = Remote_error message error
        /\ deliver NODE_ENV expected event st
           = reject (Thrown_value message)
               (removeEventListener "WebChannelMessageToContent" true
                  (console_write
                     (Console_error
                        [Text ("[webchannel] %c" ++ text_of error);
                         Text LOG_STYLE]) st)))
  \/ (exists message type,
        decode event = Valid_message message type
        /\ strict_eq_string type (response_type expected) = true
        /\ deliver NODE_ENV expected event st
           = removeEventListener "WebChannelMessageToContent" true
               (if (NODE_ENV =? "development")%string then
                  console_write
                    (Console_log [Text ("[webchannel] %creceived "
                                        ++ in_quotes (text_of type));
                                  Text LOG_STYLE; Data message])
                    (resolve message st)
                else resolve message st))
  \/ (decode event = Malformed
      /\ deliver NODE_ENV expected event st = reject_malformed event st).
Proof.
  unfold deliver, request_listener.
  destruct (registered (event_type event) st); [|now left].
  rewrite listener_decode.
  destruct (decode event) as [|message error|message type|] eqn:Hdecode.
  - now left.
  - right. left. exists message, error. now split.
  - unfold handleMessage. rewrite (decode_valid_type _ _ _ Hdecode).
    unfold bind.
    destruct (strict_eq_string type (response_type expected)) eqn:Hsame.
    + right. right. left. exists message, type.
      split; [reflexivity | split; [exact Hsame | reflexivity]].
    + now left.
  - right. right. right. now split.
Qed.

(** The promise after a terminal event reached a request in flight. *)
Lemma deliver_terminal_outcome event st :
  in_flight st ->
  terminal expected event = true ->
  promise (deliver NODE_ENV expected event st) = outcome event.
Proof.
  intros [Hlisten Hpending] Hterminal.
  unfold deliver. rewrite (registered_type st _ Hlisten).
  unfold terminal in Hterminal. unfold outcome.
  destruct (event_type event =? "WebChannelMessageToContent")%string;
    [|discriminate].
  rewrite andb_true_l in Hterminal.
  unfold request_listener. rewrite listener_decode.
  destruct (decode event) as [|message error|message type|] eqn:Hdecode;
    try discriminate.
  - cbn [promise reject removeEventListener console_write].
    now rewrite Hpending.
  - unfold handleMessage. rewrite (decode_valid_type _ _ _ Hdecode).
    unfold bind. rewrite Hterminal.
    destruct (NODE_ENV =? "development")%string;
      cbn [promise resolve removeEventListener console_write];
      now rewrite Hpending.
  - unfold reject_malformed. cbn [promise reject console_write].
    now rewrite Hpending.
Qed.

End Deliveries.

(** The promise once a terminal event has come, with what came before it
    and what comes after. *)
Lemma promise_after_terminal_event
    (NODE_ENV : string) (request : MessageRequest)
    (before after : list CustomEvent) (event : CustomEvent) :
  forallb (fun e => negb (terminal (expectedResponse request) e)) before
  = true ->
  terminal (expectedResponse request) event = true ->
  promise (deliver_all NODE_ENV (expectedResponse request)
             (before ++ event :: after)
             (_sendMessageWithResponse NODE_ENV request))
  = outcome event
  /\ outcome event <> Pending.
Proof.
  intros Hquiet Hterminal.
  set (expected := expectedResponse request) in *.
  pose proof (sent_in_flight NODE_ENV request) as Hflight.
  rewrite deliver_all_app.
  rewrite (deliver_all_not_terminal NODE_ENV expected before _
             (proj1 Hflight) Hquiet).
  change (deliver_all NODE_ENV expected (event :: after)
            (_sendMessageWithResponse NODE_ENV request))
    with (deliver_all NODE_ENV expected after
            (deliver NODE_ENV expected event
               (_sendMessageWithResponse NODE_ENV request))).
  pose proof (deliver_terminal_outcome NODE_ENV expected event _ Hflight
                Hterminal) as Hout.
  pose proof (deliver_terminal NODE_ENV expected event _ Hflight Hterminal)
    as Hsettled.
  rewrite deliver_all_settled by exact Hsettled.
  split; [exact Hout | now rewrite <- Hout].
Qed.



(** A rejecting event is terminal for every request. *)
Lemma rejecting_event_terminal expected event r :
  event_type event = "WebChannelMessageToContent" ->
  outcome event = Rejected r ->
  terminal expected event = true.
Proof.
  intros Htype. unfold outcome, terminal. rewrite Htype, String.eqb_refl.
  destruct (decode event); try discriminate; reflexivity.
Qed.

(** X2: both exported requests hand the rejection of the listener on
    unchanged: when the first terminal event of a request is a remote
    error the caller gets that message, when it is a malformed event the
    caller gets the generic error, and nothing delivered later alters it.
    What each request ignored before that event is its own affair: the
    response of the other request is among it. *)
Theorem requests_propagate_rejection
    (NODE_ENV : string) (before_query before_enable after : list CustomEvent)
    (event : CustomEvent) (r : thrown) :
  forallb (fun e => negb (terminal STATUS_RESPONSE e)) before_query = true ->
  forallb (fun e => negb (terminal ENABLE_MENU_BUTTON_DONE e)) before_enable
  = true ->
  event_type event = "WebChannelMessageToContent" ->
  outcome event = Rejected r ->
  queryIsMenuButtonEnabled
    (deliver_all NODE_ENV STATUS_RESPONSE (before_query ++ event :: after)
       (_sendMessageWithResponse NODE_ENV queryIsMenuButtonEnabled_request))
  = Rejected r
  /\ enableMenuButton
       (deliver_all NODE_ENV ENABLE_MENU_BUTTON_DONE
          (before_enable ++ event :: after)
          (_sendMessageWithResponse NODE_ENV enableMenuButton_request))
     = Rejected r.
Proof.
  intros Hquery Henable Htype Hout.
  unfold queryIsMenuButtonEnabled, enableMenuButton.
  destruct (promise_after_terminal_event NODE_ENV
              queryIsMenuButtonEnabled_request before_query after event Hquery
              (rejecting_event_terminal STATUS_RESPONSE event r Htype Hout))
    as [Hq _].
  destruct (promise_after_terminal_event NODE_ENV
              enableMenuButton_request before_enable after event Henable
              (rejecting_event_terminal ENABLE_MENU_BUTTON_DONE event r Htype
                 Hout))
    as [He _].
  cbn [expectedResponse queryIsMenuButtonEnabled_request
       enableMenuButton_request] in Hq, He.
  rewrite Hq, He, Hout. split; reflexivity.
Qed.

Lemma requests_propagate_rejection_witness :
  queryIsMenuButtonEnabled
    (deliver_all "production" STATUS_RESPONSE
       ([done_response_event] ++ error_event :: [status_response_event])
       (_sendMessageWithResponse "production" queryIsMenuButtonEnabled_request))
  = Rejected (Thrown_value error_message)
  /\ enableMenuButton
       (deliver_all "production" ENABLE_MENU_BUTTON_DONE
          ([status_response_event] ++ error_event :: [status_response_event])
          (_sendMessageWithResponse "production" enableMenuButton_request))
     = Rejected (Thrown_value error_message).
Proof.
  apply (requests_propagate_rejection "production"
           [done_response_event] [status_response_event]
           [status_response_event] error_event (Thrown_value error_message)).
  - reflexivity.
  - reflexivity.
  - reflexivity.
  - reflexivity.
Defined.



(** X4: the listener of a request throws on exactly the events whose
    [detail] is [undefined] or [null] (the destructuring of line 92); on
    every other event, whatever its shape, it returns. *)
Theorem listener_throws_only_without_detail
    (NODE_ENV : string) (expected : MessageFromBrowserTypes)
    (event : CustomEvent) (st : state) :
  request_listener NODE_ENV expected event st = None
  <-> detail event = VUndefined \/ detail event = VNull.
Proof.
  rewrite <- decode_throws.
  unfold request_listener. rewrite listener_decode.
  destruct (decode event) as [|message error|message type|] eqn:Hdecode.
  - split; reflexivity.
  - split; discriminate.
  - unfold handleMessage. rewrite (decode_valid_type _ _ _ Hdecode).
    unfold bind.
    destruct (strict_eq_string type (response_type expected));
      split; discriminate.
  - split; discriminate.
Qed.

(** ** What reaches [resolve] and [reject] *)

Section Settlement.

Variable NODE_ENV : string.
Variable expected : MessageFromBrowserTypes.

Lemma settlement_invariant_same st st' :
  resolve_calls st' = resolve_calls st ->
  reject_calls st' = reject_calls st ->
  promise st' = promise st ->
  settlement_invariant expected st ->
  settlement_invariant expected st'.
Proof.
  unfold settlement_invariant. intros -> -> ->. exact (fun H => H).
Qed.

Lemma settlement_invariant_resolve message st :
  expected_message expected message ->
  settlement_invariant expected st ->
  settlement_invariant expected (resolve message st).
Proof.
  intros Hmessage (Hresolved & Hrejected & Hfulfilled & Hreason).
  unfold settlement_invariant.
  cbn [resolve resolve_calls reject_calls promise].
  split; [|split; [|split]].
  - apply Forall_app. split; [exact Hresolved | now constructor].
  - exact Hrejected.
  - destruct (promise st); intros message' [= <-]; auto.
  - destruct (promise st); intros r' [= <-]; auto.
Qed.

Lemma settlement_invariant_reject r st :
  rejection_reason r ->
  settlement_invariant expected st ->
  settlement_invariant expected (reject r st).
Proof.
  intros Hr (Hresolved & Hrejected & Hfulfilled & Hreason).
  unfold settlement_invariant.
  cbn [reject resolve_calls reject_calls promise].
  split; [|split; [|split]].
  - exact Hresolved.
  - apply Forall_app. split; [exact Hrejected | now constructor].
  - destruct (promise st); intros message' [= <-]; auto.
  - destruct (promise st); intros r' [= <-]; auto.
Qed.

Lemma deliver_settlement_invariant event st :
  settlement_invariant expected st ->
  settlement_invariant expected (deliver NODE_ENV expected event st).
Proof.
  intros Hinv.
  destruct (deliver_cases NODE_ENV expected event st)
    as [-> | [(message & error & Hdecode & ->)
           | [(message & type & Hdecode & Hsame & ->) | [Hdecode ->]]]].
  - exact Hinv.
  - apply settlement_invariant_reject.
    + destruct (decode_remote_error _ _ _ Hdecode)
        as (Htruthy & Hobj & text & _ & Herror).
      right. exists message, text. repeat split; assumption.
    + revert Hinv. now apply settlement_invariant_same.
  - assert (Hmessage : expected_message expected message).
    { destruct (decode_valid_message _ _ _ Hdecode)
        as (Htruthy & Hobj & name & -> & Htype).
      apply String.eqb_eq in Hsame. subst name.
      repeat split; assumption. }
    pose proof (settlement_invariant_resolve message st Hmessage Hinv)
      as Hresolved.
    revert Hresolved.
    destruct (NODE_ENV =? "development")%string;
      now apply settlement_invariant_same.
  - unfold reject_malformed.
    assert (Hrejected : settlement_invariant expected (reject MALFORMED st)).
    { apply settlement_invariant_reject; [now left | exact Hinv]. }
    revert Hrejected. now apply settlement_invariant_same.
Qed.

Lemma deliver_all_settlement_invariant events st :
  settlement_invariant expected st ->
  settlement_invariant expected (deliver_all NODE_ENV expected events st).
Proof.
  revert st. unfold deliver_all.
  induction events as [|event events IH]; intros st Hinv.
  - exact Hinv.
  - apply IH. now apply deliver_settlement_invariant.
Qed.

End Settlement.

Lemma sent_settlement_invariant NODE_ENV request :
  settlement_invariant (expectedResponse request)
    (_sendMessageWithResponse NODE_ENV request).
Proof.
  unfold _sendMessageWithResponse, _sendMessage, settlement_invariant.
  destruct (NODE_ENV =? "development")%string;
    cbn [resolve_calls reject_calls promise dispatchEvent console_write
         _registerOneOffListener addEventListener new_Promise];
    (split; [constructor | split; [constructor | split; discriminate]]).
Qed.

(** X5: in the whole life of a request, [resolve] is only ever called with
    an object whose [type] is the expected response type, and [reject]
    only with the generic error or with an object that has a string
    [error]. *)
Theorem settled_only_by_checked_messages
    (NODE_ENV : string) (request : MessageRequest)
    (events : list CustomEvent) :
  let st := deliver_all NODE_ENV (expectedResponse request) events
              (_sendMessageWithResponse NODE_ENV request) in
  Forall (expected_message (expectedResponse request)) (resolve_calls st)
  /\ Forall rejection_reason (reject_calls st).
Proof.
  intros st.
  destruct (deliver_all_settlement_invariant NODE_ENV
              (expectedResponse request) events _
              (sent_settlement_invariant NODE_ENV request))
    as (Hresolved & Hrejected & _).
  split; assumption.
Qed.

(** X6: reading [menuButtonIsEnabled] off the response never throws: the
    promise of [queryIsMenuButtonEnabled] is pending, fulfilled with that
    property of the STATUS_RESPONSE the listener resolved with, or
    rejected with what the listener rejected with, never with a
    TypeError. *)
Theorem queryIsMenuButtonEnabled_never_throws
    (NODE_ENV : string) (events : list CustomEvent) :
  let st := deliver_all NODE_ENV STATUS_RESPONSE events
              (_sendMessageWithResponse NODE_ENV
                 queryIsMenuButtonEnabled_request) in
  queryIsMenuButtonEnabled st <> Rejected Thrown_TypeError
  /\ (forall response, promise st = Fulfilled response ->
        exists flag,
          get response "menuButtonIsEnabled" = Some flag
          /\ queryIsMenuButtonEnabled st = Fulfilled flag)
  /\ (forall r, promise st = Rejected r ->
        queryIsMenuButtonEnabled st = Rejected r).
Proof.
  intros st.
  destruct (deliver_all_settlement_invariant NODE_ENV STATUS_RESPONSE events _
              (sent_settlement_invariant NODE_ENV
                 queryIsMenuButtonEnabled_request))
    as (_ & _ & Hfulfilled & Hreason).
  fold st in Hfulfilled, Hreason.
  unfold queryIsMenuButtonEnabled, await.
  destruct (promise st) as [|response|r] eqn:Hpromise.
  - repeat split; discriminate.
  - destruct (Hfulfilled response eq_refl) as (Htruthy & Hobj & _).
    destruct (object_get response "menuButtonIsEnabled" Htruthy Hobj)
      as [flag Hflag].
    rewrite Hflag. repeat split; try discriminate.
    intros response' [= <-]. now exists flag.
  - repeat split; try discriminate.
    + intros [= ->].
      destruct (Hreason _ eq_refl) as [H | (m & text & H & _)];
        discriminate.
    + now intros r' [= <-].
Qed.

(** ** Logging *)

(** One delivery under two values of [NODE_ENV]: what is not the console
    stays the same. *)
Lemma deliver_observable env1 env2 expected event st1 st2 :
  observable st1 = observable st2 ->
  observable (deliver env1 expected event st1)
  = observable (deliver env2 expected event st2).
Proof.
  destruct st1 as [regs1 rem1 p1 res1 rej1 con1 dis1].
  destruct st2 as [regs2 rem2 p2 res2 rej2 con2 dis2].
  unfold observable.
  cbn [registrations removals promise resolve_calls reject_calls dispatched].
  intros [= -> -> -> -> -> ->].
  unfold deliver, registered. cbn [registrations].
  destruct (existsb (fun r => (fst r =? event_type event)%string) regs2);
    [|reflexivity].
  unfold request_listener. rewrite !listener_decode.
  destruct (decode event) as [|message error|message type|].
  - reflexivity.
  - reflexivity.
  - unfold handleMessage, bind.
    destruct (get message "type") as [type'|]; [|reflexivity].
    destruct (strict_eq_string type' (response_type expected)); [|reflexivity].
    destruct (env1 =? "development")%string;
      destruct (env2 =? "development")%string; reflexivity.
  - reflexivity.
Qed.

Lemma deliver_all_observable env1 env2 expected events st1 st2 :
  observable st1 = observable st2 ->
  observable (deliver_all env1 expected events st1)
  = observable (deliver_all env2 expected events st2).
Proof.
  revert st1 st2. unfold deliver_all.
  induction events as [|event events IH]; intros st1 st2 Hsame.
  - exact Hsame.
  - apply IH. now apply deliver_observable.
Qed.

(** X7: logging decides nothing: under any two values of [NODE_ENV] a
    request that receives the same events ends with the same listener
    registration, the same promise, the same calls of [resolve] and
    [reject] and the same dispatched events; only the console differs. *)
Theorem logging_decides_nothing
    (env1 env2 : string) (request : MessageRequest)
    (events : list CustomEvent) :
  observable (deliver_all env1 (expectedResponse request) events
                (_sendMessageWithResponse env1 request))
  = observable (deliver_all env2 (expectedResponse request) events
                  (_sendMessageWithResponse env2 request)).
Proof.
  apply deliver_all_observable.
  unfold _sendMessageWithResponse, _sendMessage.
  destruct (env1 =? "development")%string;
    destruct (env2 =? "development")%string; reflexivity.
Qed.

(** Outside development one delivery adds to the console what
    [console.error] writes on the event, if the listener hears it, and
    nothing else. *)
Lemma deliver_console NODE_ENV expected event st :
  (NODE_ENV =? "development")%string = false ->
  console (deliver NODE_ENV expected event st)
  = (console st
     ++ if registered (event_type event) st then error_log event else [])%list.
Proof.
  intros Hproduction. unfold deliver, error_log.
  destruct (registered (event_type event) st);
    [|symmetry; apply app_nil_r].
  unfold request_listener. rewrite listener_decode.
  destruct (decode event) as [|message error|message type|] eqn:Hdecode.
  - symmetry. apply app_nil_r.
  - reflexivity.
  - unfold handleMessage. rewrite (decode_valid_type _ _ _ Hdecode).
    unfold bind. rewrite Hproduction.
    destruct (strict_eq_string type (response_type expected));
      symmetry; apply app_nil_r.
  - reflexivity.
Qed.

Lemma error_log_errors event :
  forallb is_console_error (error_log event) = true.
Proof.
  unfold error_log. now destruct (decode event).
Qed.

Lemma deliver_console_errors NODE_ENV expected event st :
  (NODE_ENV =? "development")%string = false ->
  forallb is_console_error (console st) = true ->
  forallb is_console_error (console (deliver NODE_ENV expected event st))
  = true.
Proof.
  intros Hproduction Herrors.
  rewrite (deliver_console NODE_ENV expected event st Hproduction).
  rewrite forallb_app, Herrors.
  destruct (registered (event_type event) st);
    [apply error_log_errors | reflexivity].
Qed.

Lemma deliver_all_console_errors NODE_ENV expected events st :
  (NODE_ENV =? "development")%string = false ->
  forallb is_console_error (console st) = true ->
  forallb is_console_error (console (deliver_all NODE_ENV expected events st))
  = true.
Proof.
  intros Hproduction. revert st. unfold deliver_all.
  induction events as [|event events IH]; intros st Hst.
  - exact Hst.
  - apply IH. now apply deliver_console_errors.
Qed.

(** X8: outside development the module writes to the console only through
    [console.error]: sending logs nothing; a delivery adds exactly the one
    entry of a remote error or of a malformed event when the listener
    hears the event, and a response, accepted or ignored, adds nothing. *)
Theorem production_logs_only_errors
    (NODE_ENV : string) (request : MessageRequest)
    (events : list CustomEvent) (event : CustomEvent) :
  (NODE_ENV =? "development")%string = false ->
  let sent := _sendMessageWithResponse NODE_ENV request in
  let st := deliver_all NODE_ENV (expectedResponse request) events sent in
  let st' := deliver NODE_ENV (expectedResponse request) event st in
  console sent = []
  /\ forallb is_console_error (console st) = true
  /\ console st'
     = (console st
        ++ if registered (event_type event) st then error_log event
           else [])%list
  /\ (forall message type,
        decode event = Valid_message message type -> console st' = console st)
  /\ (forall message error,
        decode event = Remote_error message error ->
        registered (event_type event) st = true ->
        console st'
        = (console st
           ++ [Console_error [Text ("[webchannel] %c" ++ text_of error);
                              Text LOG_STYLE]])%list)
  /\ (decode event = Malformed ->
      registered (event_type event) st = true ->
      console st'
      = (console st
         ++ [Console_error [Text "[webchannel] %cmalformed event received";
                            Text LOG_STYLE; Event event]])%list).
Proof.
  intros Hproduction sent st st'.
  assert (Hsent : console sent = []).
  { subst sent. unfold _sendMessageWithResponse, _sendMessage.
    now rewrite Hproduction. }
  assert (Hstep :
    console st'
    = (console st
       ++ if registered (event_type event) st then error_log event
          else [])%list).
  { subst st'. now apply deliver_console. }
  split; [exact Hsent|]. split; [|split; [exact Hstep|]].
  - subst st. apply deliver_all_console_errors; [exact Hproduction|].
    now rewrite Hsent.
  - split; [|split].
    + intros message type Hdecode. rewrite Hstep. unfold error_log.
      rewrite Hdecode.
      destruct (registered (event_type event) st); apply app_nil_r.
    + intros message error Hdecode Hheard. rewrite Hstep, Hheard.
      unfold error_log. now rewrite Hdecode.
    + intros Hdecode Hheard. rewrite Hstep, Hheard.
      unfold error_log. now rewrite Hdecode.
Qed.

Lemma production_logs_only_errors_witness :
  let sent := _sendMessageWithResponse "production"
                queryIsMenuButtonEnabled_request in
  let st := deliver_all "production" STATUS_RESPONSE
              [done_response_event; malformed_event] sent in
  let st' := deliver "production" STATUS_RESPONSE status_response_event st in
  console sent = []
  /\ forallb is_console_error (console st) = true
  /\ console st'
     = (console st
        ++ if registered (event_type status_response_event) st
           then error_log status_response_event
           else [])%list
  /\ (forall message type,
        decode status_response_event = Valid_message message type ->
        console st' = console st)
  /\ (forall message error,
        decode status_response_event = Remote_error message error ->
        registered (event_type status_response_event) st = true ->
        console st'
        = (console st
           ++ [Console_error [Text ("[webchannel] %c" ++ text_of error);
                              Text LOG_STYLE]])%list)
  /\ (decode status_response_event = Malformed ->
      registered (event_type status_response_event) st = true ->
      console st'
      = (console st
         ++ [Console_error [Text "[webchannel] %cmalformed event received";
                            Text LOG_STYLE; Event status_response_event]])%list).
Proof.
  apply (production_logs_only_errors "production"
           queryIsMenuButtonEnabled_request
           [done_response_event; malformed_event] status_response_event).
  reflexivity.
Defined.

(** ** What the listener leaves alone *)

Lemma deliver_dispatched NODE_ENV expected event st :
  dispatched (deliver NODE_ENV expected event st) = dispatched st.
Proof.
  destruct (deliver_cases NODE_ENV expected event st)
    as [-> | [(message & error & Hdecode & ->)
           | [(message & type & Hdecode & Hsame & ->) | [Hdecode ->]]]];
    try reflexivity.
  destruct (NODE_ENV =? "development")%string; reflexivity.
Qed.

(** X9: a request dispatches one event to the browser when it is sent and
    never another: no event delivered to the listener, of any shape, makes
    the module dispatch again. *)
Theorem request_dispatches_once
    (NODE_ENV : string) (request : MessageRequest)
    (events : list CustomEvent) :
  exists text,
    dispatched (deliver_all NODE_ENV (expectedResponse request) events
                  (_sendMessageWithResponse NODE_ENV request))
    = [{| event_type := "WebChannelMessageToChrome";
          detail := VString text |}].
Proof.
  assert (Hsame : forall st,
            dispatched (deliver_all NODE_ENV (expectedResponse request)
                          events st) = dispatched st).
  { unfold deliver_all.
    induction events as [|event events IH]; intros st.
    - reflexivity.
    - cbn [fold_left]. rewrite IH. apply deliver_dispatched. }
  rewrite Hsame. unfold _sendMessageWithResponse.
  rewrite _sendMessage_dispatched.
  destruct request as [[] expected]; eexists; reflexivity.
Qed.

(** ** The registration of the listener *)

(** X10: at every moment of the life of a request its listener is either
    registered exactly once, for [WebChannelMessageToContent] in the
    capture phase, and was never removed, or it is not registered at all
    and [removeEventListener] was called exactly once. *)
Theorem registered_once_removed_once
    (NODE_ENV : string) (request : MessageRequest)
    (events : list CustomEvent) :
  let st := deliver_all NODE_ENV (expectedResponse request) events
              (_sendMessageWithResponse NODE_ENV request) in
  (registrations st = [("WebChannelMessageToContent", true)]
   /\ removals st = 0%nat)
  \/ (registrations st = [] /\ removals st = 1%nat).
Proof.
  intros st.
  exact (deliver_all_registration_invariant NODE_ENV
           (expectedResponse request) events _
           (sent_registration_invariant NODE_ENV request)).
Qed.

Lemma deliver_removing NODE_ENV expected event st :
  listening st ->
  removals st = 0%nat ->
  removing expected event = true ->
  registrations (deliver NODE_ENV expected event st) = []
  /\ removals (deliver NODE_ENV expected event st) = 1%nat.
Proof.
  intros Hlisten Hzero Hremoving.
  unfold deliver. rewrite (registered_type st _ Hlisten).
  unfold removing in Hremoving.
  destruct (event_type event =? "WebChannelMessageToContent")%string;
    [|discriminate].
  rewrite andb_true_l in Hremoving.
  unfold request_listener. rewrite listener_decode.
  destruct (decode event) as [|message error|message type|] eqn:Hdecode;
    try discriminate.
  - cbn [registrations removals reject removeEventListener console_write].
    rewrite Hlisten, Hzero. split; reflexivity.
  - unfold handleMessage. rewrite (decode_valid_type _ _ _ Hdecode).
    unfold bind. rewrite Hremoving.
    destruct (NODE_ENV =? "development")%string;
      cbn [registrations removals resolve removeEventListener console_write];
      rewrite Hlisten, Hzero; split; reflexivity.
Qed.

Lemma deliver_all_removing NODE_ENV expected events st :
  registration_invariant st ->
  existsb (removing expected) events = true ->
  registrations (deliver_all NODE_ENV expected events st) = []
  /\ removals (deliver_all NODE_ENV expected events st) = 1%nat.
Proof.
  revert st.
  induction events as [|event events IH]; intros st Hinv Hsome.
  - discriminate.
  - change (deliver_all NODE_ENV expected (event :: events) st)
      with (deliver_all NODE_ENV expected events
              (deliver NODE_ENV expected event st)).
    destruct Hinv as [[Hlisten Hzero] | [Hnone Hone]].
    + cbn [existsb] in Hsome.
      destruct (removing expected event) eqn:Hremoving.
      * destruct (deliver_removing NODE_ENV expected event st Hlisten Hzero
                    Hremoving) as [Hgone Hone].
        rewrite deliver_all_unregistered by exact Hgone. now split.
      * apply IH; [|exact Hsome].
        apply deliver_registration_invariant. left. now split.
    + rewrite (deliver_unregistered NODE_ENV expected event st Hnone).
      rewrite deliver_all_unregistered by exact Hnone. now split.
Qed.

(** X11: once a remote error or a response of the expected type has been
    delivered, the listener is gone, also when an earlier malformed event
    had already settled the promise: from then on it is not registered and
    was removed exactly once. *)
Theorem removing_event_removes_listener
    (NODE_ENV : string) (request : MessageRequest)
    (events : list CustomEvent) :
  existsb (removing (expectedResponse request)) events = true ->
  let st := deliver_all NODE_ENV (expectedResponse request) events
              (_sendMessageWithResponse NODE_ENV request) in
  registrations st = []
  /\ removals st = 1%nat
  /\ forall more,
       deliver_all NODE_ENV (expectedResponse request) more st = st.
Proof.
  intros Hsome st.
  destruct (deliver_all_removing NODE_ENV (expectedResponse request) events
              _ (sent_registration_invariant NODE_ENV request) Hsome)
    as [Hgone Hone].
  fold st in Hgone, Hone.
  repeat split; try assumption.
  intros more. now apply deliver_all_unregistered.
Qed.

Lemma removing_event_removes_listener_witness :
  let st := deliver_all "production" STATUS_RESPONSE
              [malformed_event; done_response_event; status_response_event]
              (_sendMessageWithResponse "production"
                 queryIsMenuButtonEnabled_request) in
  registrations st = []
  /\ removals st = 1%nat
  /\ forall more, deliver_all "production" STATUS_RESPONSE more st = st.
Proof.
  apply (removing_event_removes_listener "production"
           queryIsMenuButtonEnabled_request
           [malformed_event; done_response_event; status_response_event]).
  reflexivity.
Defined.

(** X12: the listener hears only [WebChannelMessageToContent]: an event of
    any other type dispatched on the window, the request's own outgoing
    [WebChannelMessageToChrome] among them, changes nothing at any moment
    of the life of a request. *)
Theorem other_event_types_not_heard
    (NODE_ENV : string) (request : MessageRequest)
    (events : list CustomEvent) (event : CustomEvent) :
  event_type event <> "WebChannelMessageToContent" ->
  let st := deliver_all NODE_ENV (expectedResponse request) events
              (_sendMessageWithResponse NODE_ENV request) in
  deliver NODE_ENV (expectedResponse request) event st = st.
Proof.
  intros Hother st.
  apply deliver_not_terminal.
  - destruct (deliver_all_registration_invariant NODE_ENV
                (expectedResponse request) events _
                (sent_registration_invariant NODE_ENV request))
      as [[Hlisten _] | [Hnone _]]; [now right | now left].
  - unfold terminal. apply String.eqb_neq in Hother. now rewrite Hother.
Qed.

Lemma other_event_types_not_heard_witness :
  let st := deliver_all "production" STATUS_RESPONSE [done_response_event]
              (_sendMessageWithResponse "production"
                 queryIsMenuButtonEnabled_request) in
  deliver "production" STATUS_RESPONSE
          {| event_type := "WebChannelMessageToChrome";
             detail := VObject [("id", VString CHANNEL_ID);
                                ("message", status_response)] |} st
  = st.
Proof.
  apply (other_event_types_not_heard "production"
           queryIsMenuButtonEnabled_request [done_response_event]
           {| event_type := "WebChannelMessageToChrome";
              detail := VObject [("id", VString CHANNEL_ID);
                                 ("message", status_response)] |}).
  intros H. discriminate H.
Defined.

(** ** The events that settle a request *)

(** The events on which the listener calls [resolve] or [reject] are the
    remote errors, the malformed events, the responses of the expected
    type and the events that fail the shape check. *)
Lemma terminal_settling expected event :
  terminal expected event = settling expected event.
Proof.
  unfold terminal, settling. f_equal.
  unfold decode, is_remote_error, is_malformed, is_expected_response,
    fails_shape_check, checked_message, CHANNEL_ID.
  destruct (get (detail event) "id") as [id|]; [|reflexivity].
  destruct (get (detail event) "message") as [message|]; [|reflexivity].
  destruct (strict_eq_string id "profiler.firefox.com" && truthy message
            && (typeof message =? "object")%string) eqn:Hguard;
    [|reflexivity].
  apply andb_true_iff in Hguard as [Hguard Hobj].
  apply andb_true_iff in Hguard as [_ Htruthy].
  apply String.eqb_eq in Hobj.
  destruct (object_get message "error" Htruthy Hobj) as [error Herror].
  destruct (object_get message "type" Htruthy Hobj) as [type Htype].
  rewrite (has_string_typeof _ _ _ Herror), (has_string_typeof _ _ _ Htype).
  rewrite Herror, Htype.
  destruct (typeof error =? "string")%string; [reflexivity|].
  destruct (typeof type =? "string")%string eqn:Hstring.
  - apply typeof_string in Hstring as [name ->]. cbn [negb andb orb].
    unfold strict_eq_string. now rewrite orb_false_r.
  - reflexivity.
Qed.

(** C9, as amended: the promise of a request is pending exactly as long
    as the browser has delivered no event on which the listener rejects or
    resolves: a remote error, a malformed event, a response of the
    expected type, or an event that fails the shape check (another channel
    id, a payload absent or not an object).  Whatever else is delivered,
    and however much of it, the promise stays pending: the module has no
    timeout and no cancellation. *)
Theorem settles_only_on_settling_event
    (NODE_ENV : string) (request : MessageRequest)
    (events : list CustomEvent) :
  promise (deliver_all NODE_ENV (expectedResponse request) events
             (_sendMessageWithResponse NODE_ENV request)) = Pending
  <-> forallb (fun event => negb (settling (expectedResponse request) event))
              events = true.
Proof.
  rewrite settles_only_on_terminal_event.
  assert (Hsame : forall l,
    forallb (fun event => negb (terminal (expectedResponse request) event)) l
    = forallb (fun event => negb (settling (expectedResponse request) event))
              l).
  { induction l as [|event l IH]; [reflexivity|].
    cbn [forallb]. now rewrite IH, terminal_settling. }
  rewrite Hsame. reflexivity.
Qed.

(** C9, as stated, fails: an event with the id of another channel is not
    a remote error, not a malformed event and not a response of the
    expected type, and it settles the promise. *)
Lemma foreign_event_settles_promise :
  is_remote_error foreign_event = false
  /\ is_malformed foreign_event = false
  /\ is_expected_response STATUS_RESPONSE foreign_event = false
  /\ promise status_query_sent = Pending
  /\ promise (deliver_all "production" STATUS_RESPONSE [foreign_event]
                status_query_sent)
     = Rejected MALFORMED.
Proof.
  repeat split; reflexivity.
Qed.
